(** * CSV telemetry upload: the validator and the request handler

    A shallow embedding of [csv_file_website_to_s3_lambda.py].

    Conventions of the embedding.
    - A Python [str] is a [string]; the bytes of a [string] are read as the
      UTF-8 encoding of the text, so [len(s.encode('utf-8'))] is
      [String.length s].  Every character the program inspects (comma, quote,
      line ends, the header names, the summary marker) is ASCII, and an ASCII
      byte never occurs inside a UTF-8 multi-byte sequence.
    - A Python [int] is a [Z].
    - A raised exception is a value of [exn]; code that may raise returns a
      [result].  [try]/[except] is a match on the [result].
    - [csv.reader], [int], [float] and [repr] belong to the Python library, not
      to this repository: the validator is stated over an interface
      ([Builtins]) and proved for every implementation of it.  [Module CPython]
      gives an executable implementation, used to run the validator on
      concrete CSV text. *)

From Stdlib Require Import ZArith Lia Bool Ascii DecimalString DecimalZ.
From stdpp Require Import gmap strings list.

Local Open Scope Z_scope.

(** ** Exceptions and results *)

Inductive exn_class : Set :=
| ValueError
| IndexError
| CsvError            (* csv.Error *)
| OtherException.     (* any other exception, not a ValueError *)

(** An exception: its class and [str(e)]. *)
Record exn : Set := Exn { exn_cls : exn_class; exn_msg : string }.

Inductive result (A : Type) : Type :=
| Ok (a : A)
| Raise (e : exn).
Arguments Ok {A} a.
Arguments Raise {A} e.

#[global] Instance result_ret : MRet result := fun _ a => Ok a.
#[global] Instance result_bind : MBind result := fun _ _ k r =>
  match r with
  | Ok a => k a
  | Raise e => Raise e
  end.

Definition exn_class_eqb (a b : exn_class) : bool :=
  match a, b with
  | ValueError, ValueError | IndexError, IndexError
  | CsvError, CsvError | OtherException, OtherException => true
  | _, _ => false
  end.

(** [try: body  except cls: handler].  The handler does not look at the
    exception in this program. *)
Definition try_except {A} (body : result A) (cls : exn_class)
    (handler : result A) : result A :=
  match body with
  | Ok a => Ok a
  | Raise e => if exn_class_eqb (exn_cls e) cls then handler else Raise e
  end.

(** ** Python values used by the program *)

(** [str(n)] for an [int]. *)
Definition str_int (n : Z) : string := NilZero.string_of_int (Z.to_int n).

(** [len(l)] *)
Definition len {A} (l : list A) : Z := Z.of_nat (length l).

(** [l[i]] for a constant index [i >= 0]. *)
Definition getitem {A} (l : list A) (i : nat) : result A :=
  match nth_error l i with
  | Some x => Ok x
  | None => Raise (Exn IndexError "list index out of range")
  end.

(** [s.startswith(p)] *)
Definition startswith (s p : string) : bool := String.prefix p s.

(** [sep.join(l)] *)
Fixpoint join (sep : string) (l : list string) : string :=
  match l with
  | [] => ""
  | [x] => x
  | x :: l' => x +:+ sep +:+ join sep l'
  end.

(** [for i in l: body(i)] where the body only raises or falls through. *)
Fixpoint for_each {A} (l : list A) (body : A -> result unit) : result unit :=
  match l with
  | [] => Ok tt
  | i :: l' => body i ;; for_each l' body
  end.

(** [range(a, b)] for [a <= b]. *)
Definition range (a b : nat) : list nat := seq a (b - a).

(** No colon in [s]. *)
Fixpoint colon_free (s : string) : bool :=
  match s with
  | String c s' => negb (bool_decide (c = ":"%char)) && colon_free s'
  | EmptyString => true
  end.

(** ** The iterator protocol of [csv.reader]

    What the successive [next(reader)] calls give: a row and the reader
    after it, [StopIteration], or an exception (the program makes no
    further call after one). *)
Inductive reader : Type :=
| StopIteration
| Yield (row : list string) (rest : reader)
| Throws (e : exn).

(** The reader that gives the rows of [rows] and then behaves as [tl]. *)
Fixpoint yield_all (rows : list (list string)) (tl : reader) : reader :=
  match rows with
  | [] => tl
  | r :: rows' => Yield r (yield_all rows' tl)
  end.

(** ** The library interface *)

Class Builtins := {
  (** [csv.reader(io.StringIO(csv_data))] *)
  csv_reader : string -> reader;
  (** the message of the [ValueError] of [int(s)], [None] when [int(s)]
      returns; on a [str], [int] raises nothing else *)
  int_error : string -> option string;
  (** the same for [float(s)] *)
  float_error : string -> option string;
  (** [repr(s)] *)
  repr_str : string -> string;
}.

Section Validator.
Context `{Builtins}.

Definition py_int (s : string) : result unit :=
  match int_error s with
  | None => Ok tt
  | Some m => Raise (Exn ValueError m)
  end.

Definition py_float (s : string) : result unit :=
  match float_error s with
  | None => Ok tt
  | Some m => Raise (Exn ValueError m)
  end.

(** [str(row)] of a list of strings, as in [f'({row})']. *)
Definition str_list (row : list string) : string :=
  "[" +:+ join ", " (map repr_str row) +:+ "]".

(** ** The validator *)

Definition EXPECTED_HEADER : list string :=
  [ "Episode"; "Step"; "Health"; "Reward";
    "XVelocity"; "YVelocity"; "ZVelocity";
    "XPosition"; "YPosition"; "ZPosition";
    "ActionForwardWithDescription"; "ActionRotateWithDescription";
    "WasAgentFrozen?"; "WasNotificationShown?";
    "WasRewardDispensed?"; "DispensedRewardType"; "CollectedRewardType";
    "WasSpawnerButtonTriggered?"; "CombinedSpawnerInfo";
    "DataZoneMessage"; "ActiveCamera"; "CombinedRaycastData" ].

Record ValidationResult : Type := Verdict {
  valid : bool;
  error : option string;
  row_count : option Z;
}.

Definition max_rows : Z := 100000.

Definition invalid (msg : string) : ValidationResult :=
  {| valid := false; error := Some msg; row_count := None |}.

Definition valid_with (n : Z) : ValidationResult :=
  {| valid := true; error := None; row_count := Some n |}.

(** The body of the inner [try]: the numeric conversions of one row. *)
Definition numeric_checks (row : list string) : result unit :=
  (getitem row 0 ≫= py_int) ;;
  (getitem row 1 ≫= py_int) ;;
  (getitem row 2 ≫= py_float) ;;
  (getitem row 3 ≫= py_float) ;;
  for_each (range 4 10) (fun i => getitem row i ≫= py_float).

Definition too_many_rows_msg : string :=
  "Too many rows (max " +:+ str_int max_rows +:+ ")".

Definition column_count_msg (row_num : Z) (row : list string) : string :=
  "Row " +:+ str_int row_num +:+ ": Expected " +:+ str_int (len EXPECTED_HEADER)
  +:+ " columns, got " +:+ str_int (len row) +:+ ". (" +:+ str_list row +:+ ")".

Definition numeric_msg (row_num : Z) : string :=
  "Row " +:+ str_int row_num +:+ ": Invalid numeric values in required fields".

(** What one pass through the body of the [for] loop does. *)
Inductive step : Type :=
| Continue                          (* go on with the next row *)
| Return (v : ValidationResult).    (* [return v] *)

(** The body of the loop, for the row [row] with number [row_num];
    [row_count] is the counter after [row_count += 1]. *)
Definition loop_body (row_num row_count : Z) (row : list string) : result step :=
  if row_count >? max_rows then
    Ok (Return (invalid too_many_rows_msg))
  else if negb (len row =? len EXPECTED_HEADER) then
    first ← getitem row 0;
    if startswith first "Positive Goals Collected" then Ok Continue
    else Ok (Return (invalid (column_count_msg row_num row)))
  else
    try_except (numeric_checks row ;; Ok Continue) ValueError
      (Ok (Return (invalid (numeric_msg row_num)))).

(** The code after the loop; its check of small files does nothing. *)
Definition after_loop (row_count : Z) : ValidationResult :=
  if row_count =? 0 then invalid "No data rows found"
  else {| valid := true; error := None; row_count := Some row_count |}.

(** [for row_num, row in enumerate(reader, start=2)], entered with the
    next row number and the counter so far. *)
Fixpoint rows_loop (rd : reader) (row_num row_count : Z)
    : result ValidationResult :=
  match rd with
  | StopIteration => Ok (after_loop row_count)
  | Throws e => Raise e
  | Yield row rest =>
      let row_count := row_count + 1 in
      s ← loop_body row_num row_count row;
      match s with
      | Return v => Ok v
      | Continue => rows_loop rest (row_num + 1) row_count
      end
  end.

(** The body of the outer [try]. *)
Definition validate_body (csv_data : string) : result ValidationResult :=
  match csv_reader csv_data with
  | StopIteration => Ok (invalid "Empty CSV file")
  | Throws e => Raise e
  | Yield header rest =>
      if negb (bool_decide (header = EXPECTED_HEADER)) then
        Ok (invalid ("Header mismatch. Expected " +:+ str_int (len EXPECTED_HEADER)
                     +:+ " columns, got " +:+ str_int (len header)))
      else rows_loop rest 2 0
  end.

Definition parsing_error (e : exn) : ValidationResult :=
  invalid ("CSV parsing error: " +:+ exn_msg e).

(** [validate_csv]: the body under [except Exception]. *)
Definition validate_csv (csv_data : string) : ValidationResult :=
  match validate_body csv_data with
  | Ok v => v
  | Raise e => parsing_error e
  end.

(** ** Rows, as the specification classifies them *)

Definition int_parses (s : string) : bool :=
  match int_error s with None => true | Some _ => false end.

Definition float_parses (s : string) : bool :=
  match float_error s with None => true | Some _ => false end.

(** The field at index [i] of a row. *)
Definition column (row : list string) (i : nat) : string := nth i row "".

(** Columns 0 and 1 parse as integers, columns 2 to 9 as floats. *)
Definition numeric_columns_ok (row : list string) : bool :=
  forallb (fun i => int_parses (column row i)) [0; 1]%nat
  && forallb (fun i => float_parses (column row i)) [2; 3; 4; 5; 6; 7; 8; 9]%nat.

(** A well-formed data row: 22 columns, the numeric ones parse. *)
Definition well_formed_row (row : list string) : bool :=
  (len row =? 22) && numeric_columns_ok row.

(** A summary row: a column count other than 22 and a first field that
    starts with the marker. *)
Definition summary_row (row : list string) : bool :=
  negb (len row =? 22)
  && match row with
     | first :: _ => startswith first "Positive Goals Collected"
     | [] => false
     end.

(** The rows after which the loop goes on. *)
Definition accepted_row (row : list string) : bool :=
  well_formed_row row || summary_row row.

(** The outcomes of one pass through the loop body, by the counter and
    the row. *)
Inductive pass_outcome (n c : Z) (row : list string) : result step -> Prop :=
| pass_too_many :
    max_rows < c ->
    pass_outcome n c row (Ok (Return (invalid too_many_rows_msg)))
| pass_index_error :
    c <= max_rows -> row = [] ->
    pass_outcome n c row (Raise (Exn IndexError "list index out of range"))
| pass_continue :
    c <= max_rows -> accepted_row row = true ->
    pass_outcome n c row (Ok Continue)
| pass_column_count :
    c <= max_rows -> row <> [] -> accepted_row row = false -> len row <> 22 ->
    pass_outcome n c row (Ok (Return (invalid (column_count_msg n row))))
| pass_numeric :
    c <= max_rows -> len row = 22 -> numeric_columns_ok row = false ->
    pass_outcome n c row (Ok (Return (invalid (numeric_msg n)))).

(** A verdict whose message names row [k]. *)
Definition names_row (k : Z) (v : ValidationResult) : Prop :=
  error v = Some (numeric_msg k)
  \/ exists row, error v = Some (column_count_msg k row).

(** The two shapes of a verdict. *)
Definition verdict_shape (v : ValidationResult) : Prop :=
  (valid v = true /\ error v = None
   /\ exists n, row_count v = Some n /\ 1 <= n <= 100000)
  \/ (valid v = false /\ (exists msg, error v = Some msg) /\ row_count v = None).

End Validator.

(** * The request handler *)

(** The values of the event: a string or [None], as the annotations of the
    handler have them. *)
Inductive pyval : Set :=
| PyNone
| PyStr (s : string).

#[global] Instance pyval_eq_dec : EqDecision pyval.
Proof. solve_decision. Defined.

(** A [dict] with string keys, in insertion order. *)
Definition dict (V : Type) : Type := list (string * V).

(** [d.get(key, default)] *)
Fixpoint dict_get {V} (d : dict V) (key : string) (default : V) : V :=
  match d with
  | [] => default
  | (k, v) :: d' => if bool_decide (k = key) then v else dict_get d' key default
  end.

(** [key in d] *)
Definition dict_has {V} (d : dict V) (key : string) : bool :=
  existsb (fun kv => bool_decide (fst kv = key)) d.

(** [str(v)], as an f-string formats a value. *)
Definition str_val (v : pyval) : string :=
  match v with
  | PyNone => "None"
  | PyStr s => s
  end.

(** The truth value of [v]: [None] and the empty string are false. *)
Definition truthy (v : pyval) : bool :=
  match v with
  | PyNone => false
  | PyStr s => negb (bool_decide (s = ""))
  end.

(** What [json.dumps] is given. *)
Inductive json : Set :=
| JNull
| JStr (s : string)
| JInt (n : Z).

Definition to_json (v : pyval) : json :=
  match v with
  | PyNone => JNull
  | PyStr s => JStr s
  end.

Definition BUCKET_NAME : string := "test-csv-file-storage".
Definition MAX_FILE_SIZE : Z := 10 * 1024 * 1024.

(** The arguments of [s3_client.put_object]. *)
Record PutObject : Type := {
  Bucket : string;
  Key : string;
  Body : string;
  ContentType : string;
  Metadata : dict pyval;
}.

(** The API Gateway response. *)
Record Response : Type := {
  statusCode : Z;
  headers : dict string;
  body : string;
}.

(** What the handler takes from outside the program. *)
Record World : Type := {
  (** [datetime.utcnow().isoformat()], by the number of the call within the
      invocation *)
  utcnow_isoformat : nat -> string;
  (** [hashlib.md5(s.encode()).hexdigest()] *)
  md5_hexdigest : string -> string;
  (** [base64.b64decode(s).decode('utf-8')] *)
  b64decode_utf8 : string -> result string;
  (** the exception that [put_object] raises for a request, if any *)
  put_object_error : PutObject -> option exn;
  (** [json.dumps] of a dictionary *)
  json_dumps : dict json -> string;
}.

Section Handler.
Context `{Builtins} (w : World).

Definition repr_val (v : pyval) : string :=
  match v with
  | PyNone => "None"
  | PyStr s => repr_str s
  end.

(** [str(d)] of a dictionary *)
Definition str_dict (d : dict pyval) : string :=
  "{"
  +:+ join ", " (map (fun kv => repr_str (fst kv) +:+ ": " +:+ repr_val (snd kv)) d)
  +:+ "}".

Definition str_opt_str (o : option string) : string :=
  match o with
  | None => "None"
  | Some s => s
  end.

Definition str_opt_int (o : option Z) : string :=
  match o with
  | None => "None"
  | Some n => str_int n
  end.

Definition json_opt_int (o : option Z) : json :=
  match o with
  | None => JNull
  | Some n => JInt n
  end.

Definition cors_headers : dict string :=
  [ ("Access-Control-Allow-Origin", "*");
    ("Access-Control-Allow-Headers", "Content-Type");
    ("Content-Type", "application/json") ].

Definition error_response (status_code : Z) (message : string) : Response :=
  {| statusCode := status_code;
     headers := cors_headers;
     body := json_dumps w [("error", JStr message)] |}.

(** [clock] is the number of calls of [utcnow] made before this one. *)
Definition generate_session_id (clock : nat) : string :=
  let timestamp := utcnow_isoformat w clock in
  String.substring 0 12 (md5_hexdigest w timestamp).

(** [s3_client.put_object] on the bucket (its objects, by key): the object
    is stored under its key unless the call raises. *)
Definition put_object (s3 : gmap string PutObject) (req : PutObject)
    : result (gmap string PutObject) :=
  match put_object_error w req with
  | Some e => Raise e
  | None => Ok (<[Key req := req]> s3)
  end.

(** The outcome of the [Decode if base64] block: the text, or the response
    of the handler of its [try]. *)
Definition decode (encoding : pyval) (csv_data : string) : string + Response :=
  if bool_decide (encoding = PyStr "base64") then
    match b64decode_utf8 w csv_data with
    | Ok text => inl text
    | Raise e =>
        inr (error_response 400 ("Invalid base64 encoding: " +:+ exn_msg e))
    end
  else inl csv_data.

(** The handler, from the event and the bucket to the response and the
    bucket.  Nothing on this path raises outside the two inner [try]
    blocks, so the outer handler ([Internal server error]) is not
    entered. *)
Definition lambda_handler (event : dict pyval) (s3 : gmap string PutObject)
    : Response * gmap string PutObject :=
  let csv_data := dict_get event "csv_data" PyNone in
  let encoding := dict_get event "encoding" (PyStr "plain") in
  let session_id := dict_get event "session_id" (PyStr (generate_session_id 0)) in
  let user_id := dict_get event "user_id" PyNone in
  if negb (truthy csv_data) then
    (error_response 400
       ("Missing csv_data in request body. Got " +:+ str_dict event), s3)
  else
    match decode encoding (str_val csv_data) with
    | inr response => (response, s3)
    | inl csv_data =>
        if Z.of_nat (String.length csv_data) >? MAX_FILE_SIZE then
          (error_response 413
             ("File too large. Max size: " +:+ str_int MAX_FILE_SIZE +:+ " bytes"),
           s3)
        else
          let validation_result := validate_csv csv_data in
          if negb (valid validation_result) then
            (error_response 400
               ("Invalid CSV: " +:+ str_opt_str (error validation_result)), s3)
          else
            let s3_key := str_val user_id +:+ "/" +:+ str_val session_id +:+ ".csv" in
            let request :=
              {| Bucket := BUCKET_NAME;
                 Key := s3_key;
                 Body := csv_data;
                 ContentType := "text/csv";
                 Metadata :=
                   [ ("session_id", session_id);
                     ("row_count",
                      PyStr (str_opt_int (row_count validation_result)));
                     ("upload_timestamp", PyStr (utcnow_isoformat w 1)) ] |} in
            match put_object s3 request with
            | Raise e =>
                (error_response 500 ("S3 upload failed: " +:+ exn_msg e), s3)
            | Ok s3' =>
                ({| statusCode := 200;
                    headers := cors_headers;
                    body :=
                      json_dumps w
                        [ ("message", JStr "Telemetry uploaded successfully");
                          ("s3_key", JStr s3_key);
                          ("row_count", json_opt_int (row_count validation_result));
                          ("session_id", to_json session_id) ] |},
                 s3')
            end
    end.

End Handler.

(** * An executable model of the library

    The behaviour of CPython 3.11 for the calls the validator makes, on
    [str] arguments.  The character classes of [int], [float] and
    [repr] are modelled for ASCII text: outside ASCII, CPython also accepts
    the other Unicode decimal digits and spaces in numbers and escapes the
    non-printable characters in [repr]; these cases are left out. *)
Module CPython.

Definition code (c : ascii) : N := N_of_ascii c.

Definition is_digit (c : ascii) : bool := ((48 <=? code c) && (code c <=? 57))%N.

(** [Py_ISSPACE]: space, [\t], [\n], [\v], [\f], [\r]. *)
Definition is_space (c : ascii) : bool :=
  ((code c =? 32) || ((9 <=? code c) && (code c <=? 13)))%N.

(** A byte [10xxxxxx]: inside a multi-byte UTF-8 sequence. *)
Definition is_continuation (c : ascii) : bool :=
  ((128 <=? code c) && (code c <? 192))%N.

Definition LF : ascii := ascii_of_N 10.
Definition CR : ascii := ascii_of_N 13.
Definition QUOTE : ascii := ascii_of_N 34.
Definition COMMA : ascii := ascii_of_N 44.

(** ** [csv.reader] with the default ([excel]) dialect

    Delimiter [COMMA], quote character [QUOTE], [doublequote], no escape
    character, not strict, [QUOTE_MINIMAL].  The states that only an escape
    character leads to are left out. *)

Inductive ParserState : Set :=
| START_RECORD | START_FIELD | IN_FIELD
| IN_QUOTED_FIELD | QUOTE_IN_QUOTED_FIELD | EAT_CRNL.

#[global] Instance ParserState_eq_dec : EqDecision ParserState.
Proof. solve_decision. Defined.

Record parser : Type := Parser {
  state : ParserState;
  fields : list string;      (* the fields of the record so far *)
  field : string;            (* the field being read *)
  field_len : Z;             (* its length in characters *)
}.

Definition field_limit : Z := 128 * 1024.

Definition parse_reset : parser :=
  {| state := START_RECORD; fields := []; field := ""; field_len := 0 |}.

Definition set_state (p : parser) (s : ParserState) : parser :=
  {| state := s; fields := fields p; field := field p; field_len := field_len p |}.

Definition parse_save_field (p : parser) : parser :=
  {| state := state p; fields := fields p ++ [field p]; field := "";
     field_len := 0 |}.

(** [field_len] counts characters: the continuation bytes of a character
    are stored without being counted. *)
Definition parse_add_char (p : parser) (c : ascii) : result parser :=
  if is_continuation c then
    Ok {| state := state p; fields := fields p;
          field := field p +:+ String c ""; field_len := field_len p |}
  else if field_len p >=? field_limit then
    Raise (Exn CsvError
             ("field larger than field limit (" +:+ str_int field_limit +:+ ")"))
  else
    Ok {| state := state p; fields := fields p;
          field := field p +:+ String c ""; field_len := field_len p + 1 |}.

Definition is_newline (c : ascii) : bool :=
  bool_decide (c = LF) || bool_decide (c = CR).

(** [parse_process_char]; [None] is the end-of-line mark [EOL] that the
    reader feeds after the characters of each line. *)
Definition parse_process_char (p : parser) (c : option ascii) : result parser :=
  match state p, c with
  | START_RECORD, None => Ok p
  | (START_RECORD | START_FIELD), Some c =>
      if is_newline c then
        match state p with
        | START_RECORD => Ok (set_state p EAT_CRNL)
        | _ => Ok (set_state (parse_save_field p) EAT_CRNL)
        end
      else if bool_decide (c = QUOTE) then Ok (set_state p IN_QUOTED_FIELD)
      else if bool_decide (c = COMMA) then
        Ok (set_state (parse_save_field p) START_FIELD)
      else p' ← parse_add_char p c; Ok (set_state p' IN_FIELD)
  | START_FIELD, None => Ok (set_state (parse_save_field p) START_RECORD)
  | IN_FIELD, None => Ok (set_state (parse_save_field p) START_RECORD)
  | IN_FIELD, Some c =>
      if is_newline c then Ok (set_state (parse_save_field p) EAT_CRNL)
      else if bool_decide (c = COMMA) then
        Ok (set_state (parse_save_field p) START_FIELD)
      else parse_add_char p c
  | IN_QUOTED_FIELD, None => Ok p
  | IN_QUOTED_FIELD, Some c =>
      if bool_decide (c = QUOTE) then Ok (set_state p QUOTE_IN_QUOTED_FIELD)
      else parse_add_char p c
  | QUOTE_IN_QUOTED_FIELD, None =>
      Ok (set_state (parse_save_field p) START_RECORD)
  | QUOTE_IN_QUOTED_FIELD, Some c =>
      if bool_decide (c = QUOTE) then
        p' ← parse_add_char p c; Ok (set_state p' IN_QUOTED_FIELD)
      else if bool_decide (c = COMMA) then
        Ok (set_state (parse_save_field p) START_FIELD)
      else if is_newline c then Ok (set_state (parse_save_field p) EAT_CRNL)
      else p' ← parse_add_char p c; Ok (set_state p' IN_FIELD)
  | EAT_CRNL, None => Ok (set_state p START_RECORD)
  | EAT_CRNL, Some c =>
      if is_newline c then Ok p
      else
        Raise (Exn CsvError
                 ("new-line character seen in unquoted field - do you need "
                  +:+ "to open the file in universal-newline mode?"))
  end.

(** The characters of one line, then [EOL]. *)
Fixpoint feed_line (p : parser) (line : string) : result parser :=
  match line with
  | EmptyString => parse_process_char p None
  | String c line' => p' ← parse_process_char p (Some c); feed_line p' line'
  end.

(** The lines of [io.StringIO(s)]: each ends after a line feed, the last one
    at the end of the text. *)
Fixpoint readlines_from (cur : string) (s : string) : list string :=
  match s with
  | EmptyString => if bool_decide (cur = "") then [] else [cur]
  | String c s' =>
      if bool_decide (c = LF) then (cur +:+ String c "") :: readlines_from "" s'
      else readlines_from (cur +:+ String c "") s'
  end.

Definition readlines (s : string) : list string := readlines_from "" s.

(** The successive [next(reader)]: lines are fed until a record is
    complete; at the end of the input a record left open is given as it
    is. *)
Fixpoint read_records (lines : list string) (p : parser) : reader :=
  match lines with
  | [] =>
      if negb (field_len p =? 0) || bool_decide (state p = IN_QUOTED_FIELD)
      then Yield (fields (parse_save_field p)) StopIteration
      else StopIteration
  | line :: lines' =>
      match feed_line p line with
      | Raise e => Throws e
      | Ok p' =>
          if bool_decide (state p' = START_RECORD)
          then Yield (fields p') (read_records lines' parse_reset)
          else read_records lines' p'
      end
  end.

Definition reader_of (csv_data : string) : reader :=
  read_records (readlines csv_data) parse_reset.

(** ** [int(s)] and [float(s)] on ASCII text *)

Fixpoint lstrip (s : string) : string :=
  match s with
  | String c s' => if is_space c then lstrip s' else s
  | EmptyString => EmptyString
  end.

Fixpoint rstrip (s : string) : string :=
  match s with
  | String c s' =>
      match rstrip s' with
      | EmptyString => if is_space c then EmptyString else String c EmptyString
      | r => String c r
      end
  | EmptyString => EmptyString
  end.

Definition is_sign (c : ascii) : bool :=
  bool_decide (c = "+"%char) || bool_decide (c = "-"%char).

Definition skip_sign (s : string) : string :=
  match s with
  | String c s' => if is_sign c then s' else s
  | EmptyString => EmptyString
  end.

(** The digits of an integer literal, single underscores allowed between
    them: the number of digits and the text after them, [None] when an
    underscore is misplaced. *)
Fixpoint scan_digits (s : string) (after_underscore : bool) (digits : Z)
    : option (Z * string) :=
  match s with
  | String c s' =>
      if is_digit c then scan_digits s' false (digits + 1)
      else if bool_decide (c = "_"%char) then
        if after_underscore then None else scan_digits s' true digits
      else if after_underscore then None else Some (digits, s)
  | EmptyString => if after_underscore then None else Some (digits, EmptyString)
  end.

Definition int_max_str_digits : Z := 4300.

Inductive int_outcome : Set :=
| IntValue                 (* [int(s)] returns *)
| IntInvalid               (* invalid literal *)
| IntTooLong (digits : Z). (* more digits than [int_max_str_digits] *)

(** [PyLong_FromString] in base 10: spaces, a sign, digits, spaces. *)
Definition parse_int (s : string) : int_outcome :=
  match skip_sign (lstrip s) with
  | String c _ as body =>
      if is_digit c then
        match scan_digits body false 0 with
        | Some (digits, tl) =>
            match lstrip tl with
            | EmptyString =>
                if digits >? int_max_str_digits then IntTooLong digits
                else IntValue
            | _ => IntInvalid
            end
        | None => IntInvalid
        end
      else IntInvalid
  | EmptyString => IntInvalid
  end.

(** [_Py_string_to_number_with_underscores]: the text without its
    underscores, each of which must stand between two digits. *)
Fixpoint remove_underscores (s : string) (prev : option ascii) : option string :=
  match s with
  | String c s' =>
      if bool_decide (c = "_"%char) then
        match prev with
        | Some d => if is_digit d then remove_underscores s' (Some c) else None
        | None => None
        end
      else
        match prev with
        | Some d =>
            if bool_decide (d = "_"%char) && negb (is_digit c) then None
            else String c <$> remove_underscores s' (Some c)
        | None => String c <$> remove_underscores s' (Some c)
        end
  | EmptyString =>
      match prev with
      | Some d => if bool_decide (d = "_"%char) then None else Some EmptyString
      | None => Some EmptyString
      end
  end.

Fixpoint skip_digits (s : string) : bool * string :=
  match s with
  | String c s' =>
      if is_digit c then (true, snd (skip_digits s')) else (false, s)
  | EmptyString => (false, EmptyString)
  end.

Definition lower (c : ascii) : ascii :=
  if ((65 <=? code c) && (code c <=? 90))%N then ascii_of_N (code c + 32) else c.

Fixpoint lowercase (s : string) : string :=
  match s with
  | String c s' => String (lower c) (lowercase s')
  | EmptyString => EmptyString
  end.

(** The exponent of a decimal literal, if the text starts with one: the text
    after it. *)
Definition skip_exponent (s : string) : string :=
  match s with
  | String c s' =>
      if bool_decide (lower c = "e"%char) then
        match skip_digits (skip_sign s') with
        | (true, tl) => tl
        | (false, _) => s
        end
      else s
  | EmptyString => EmptyString
  end.

(** [PyOS_string_to_double] consumes the whole of [s]: a decimal literal
    with at least one digit, or [inf], [infinity] or [nan], after an optional
    sign. *)
Definition is_float_literal (s : string) : bool :=
  let body := skip_sign s in
  let '(int_digits, tl) := skip_digits body in
  let '(frac_digits, tl) :=
    match tl with
    | String c tl' =>
        if bool_decide (c = "."%char) then skip_digits tl' else (false, tl)
    | EmptyString => (false, tl)
    end in
  if int_digits || frac_digits then bool_decide (skip_exponent tl = EmptyString)
  else
    let w := lowercase body in
    bool_decide (w = "inf") || bool_decide (w = "infinity")
    || bool_decide (w = "nan").

Definition parse_float (s : string) : bool :=
  match remove_underscores (rstrip (lstrip s)) None with
  | Some t => is_float_literal t
  | None => false
  end.

(** ** [repr(s)] on ASCII text *)

Definition hex_digit (n : N) : ascii :=
  if (n <? 10)%N then ascii_of_N (48 + n) else ascii_of_N (87 + n).

Definition BACKSLASH : ascii := ascii_of_N 92.
Definition APOSTROPHE : ascii := ascii_of_N 39.

Fixpoint contains (c : ascii) (s : string) : bool :=
  match s with
  | String d s' => bool_decide (c = d) || contains c s'
  | EmptyString => false
  end.

Definition repr_char (quote c : ascii) : string :=
  if bool_decide (c = quote) || bool_decide (c = BACKSLASH) then
    String BACKSLASH (String c EmptyString)
  else if bool_decide (code c = 9%N) then String BACKSLASH "t"
  else if bool_decide (c = LF) then String BACKSLASH "n"
  else if bool_decide (c = CR) then String BACKSLASH "r"
  else if ((code c <? 32) || (code c =? 127))%N then
    String BACKSLASH
      (String "x" (String (hex_digit (code c / 16)%N)
                     (String (hex_digit (code c mod 16)%N) EmptyString)))
  else String c EmptyString.

Fixpoint repr_body (quote : ascii) (s : string) : string :=
  match s with
  | String c s' => repr_char quote c +:+ repr_body quote s'
  | EmptyString => EmptyString
  end.

Definition repr (s : string) : string :=
  let quote :=
    if contains APOSTROPHE s && negb (contains QUOTE s) then QUOTE
    else APOSTROPHE in
  String quote (repr_body quote s +:+ String quote EmptyString).

(** The messages of the [ValueError]s; [int] quotes at most 200 characters
    of the text. *)
Definition int_value_error (s : string) : option string :=
  match parse_int s with
  | IntValue => None
  | IntInvalid =>
      Some ("invalid literal for int() with base 10: "
            +:+ String.substring 0 200 (repr s))
  | IntTooLong digits =>
      Some ("Exceeds the limit (" +:+ str_int int_max_str_digits
            +:+ " digits) for integer string conversion: value has "
            +:+ str_int digits
            +:+ " digits; use sys.set_int_max_str_digits() to increase the limit")
  end.

Definition float_value_error (s : string) : option string :=
  if parse_float s then None
  else Some ("could not convert string to float: " +:+ repr s).

(** ** [json.dumps] of a dictionary of ASCII strings and integers

    The default separators and [ensure_ascii]; a byte outside ASCII is
    copied, where CPython writes the escape of its character. *)

Definition hex4 (n : N) : string :=
  String (hex_digit (n / 4096 mod 16)%N)
    (String (hex_digit (n / 256 mod 16)%N)
       (String (hex_digit (n / 16 mod 16)%N)
          (String (hex_digit (n mod 16)%N) EmptyString))).

Definition json_char (c : ascii) : string :=
  if bool_decide (c = QUOTE) || bool_decide (c = BACKSLASH) then
    String BACKSLASH (String c EmptyString)
  else if bool_decide (c = LF) then String BACKSLASH "n"
  else if bool_decide (c = CR) then String BACKSLASH "r"
  else if bool_decide (code c = 9%N) then String BACKSLASH "t"
  else if bool_decide (code c = 8%N) then String BACKSLASH "b"
  else if bool_decide (code c = 12%N) then String BACKSLASH "f"
  else if ((code c <? 32) || (code c =? 127))%N then
    String BACKSLASH (String "u" (hex4 (code c)))
  else String c EmptyString.

Fixpoint json_string_body (s : string) : string :=
  match s with
  | String c s' => json_char c +:+ json_string_body s'
  | EmptyString => EmptyString
  end.

Definition json_string (s : string) : string :=
  String QUOTE (json_string_body s +:+ String QUOTE EmptyString).

Definition json_value (v : json) : string :=
  match v with
  | JNull => "null"
  | JStr s => json_string s
  | JInt n => str_int n
  end.

Definition json_dumps (d : dict json) : string :=
  "{"
  +:+ join ", "
        (map (fun kv => json_string (fst kv) +:+ ": " +:+ json_value (snd kv)) d)
  +:+ "}".

#[global] Instance builtins : Builtins := {|
  csv_reader := reader_of;
  int_error := int_value_error;
  float_error := float_value_error;
  repr_str := repr;
|}.

End CPython.

(** * Concrete inputs

    The library is [CPython.builtins] from here on. *)

Module Examples.

Definition nl : string := String CPython.LF "".
Definition crlf : string := String CPython.CR nl.

(** No line feed in [s]. *)
Fixpoint lf_free (s : string) : bool :=
  match s with
  | String c s' => negb (bool_decide (c = CPython.LF)) && lf_free s'
  | EmptyString => true
  end.

(** The header as a CSV line: the names joined by commas. *)
Definition header_line : string := join "," EXPECTED_HEADER.

Definition good_fields : list string :=
  [ "1"; "0"; "100.0"; "0.5"; "0.0"; "-0.25"; "1.5"; "3.2"; "0.5"; "1e-3";
    "1 (forward)"; "0 (none)"; "False"; "False"; "False"; "None"; "None";
    "False"; ""; ""; "0"; "x" ].
Definition good_line : string := join "," good_fields.

Definition summary_fields : list string :=
  ["Positive Goals Collected: 2"; "of 3"].
Definition summary_line : string := join "," summary_fields.

(** 22 columns, the first of which is the summary marker. *)
Definition marker_fields : list string :=
  "Positive Goals Collected" :: tail good_fields.

(** 22 columns, the sixth of which is no number. *)
Definition bad_float_fields : list string :=
  [ "1"; "1"; "100.0"; "0.5"; "0.0"; "fast"; "1.5"; "3.2"; "0.5"; "1e-3";
    "1 (forward)"; "0 (none)"; "False"; "False"; "False"; "None"; "None";
    "False"; ""; ""; "0"; "x" ].

(** 22 columns, the first of which is no integer. *)
Definition bad_int_fields : list string := "x" :: tail good_fields.

(** The lines, each ended by a line feed. *)
Fixpoint unlines (lines : list string) : string :=
  match lines with
  | [] => ""
  | l :: lines' => l +:+ nl +:+ unlines lines'
  end.

(** The header and the given lines. *)
Definition csv_text (lines : list string) : string :=
  unlines (header_line :: lines).

Definition two_rows : string :=
  header_line +:+ crlf +:+ good_line +:+ crlf +:+ good_line +:+ nl.

Definition with_summary : string :=
  csv_text [good_line; summary_line; good_line].

Definition with_short_row : string := csv_text [good_line; "a,b,c"].

Definition with_blank_line : string := csv_text [good_line; ""; good_line].

Definition with_bad_float : string :=
  csv_text [good_line; join "," bad_float_fields; good_line].

Definition with_bad_int : string := csv_text [join "," bad_int_fields].

Definition with_marker_of_22 : string := csv_text [join "," marker_fields].

Definition only_summary : string := csv_text [summary_line].

(** 100000 summary rows, and one row more. *)
Definition over_cap : string :=
  csv_text (repeat summary_line (Z.to_nat 100000) ++ ["one more"]).

(** A world for running the handler: the clock stands still and the store
    takes every upload.  MD5 and base64 are not modelled: their stand-ins
    play no part for an event that carries its session id and is not
    base64-encoded. *)
Definition quiet_world : World := {|
  utcnow_isoformat := fun _ => "2024-05-01T12:00:00.000000";
  md5_hexdigest := fun _ => "00000000000000000000000000000000";
  b64decode_utf8 := fun _ => Raise (Exn OtherException "Incorrect padding");
  put_object_error := fun _ => None;
  json_dumps := CPython.json_dumps;
|}.

Definition upload_event : dict pyval :=
  [ ("csv_data", PyStr two_rows); ("session_id", PyStr "a1b2c3d4e5f6") ].

End Examples.

Import Examples.

(** More inputs, for the properties of the second part. *)
Module MoreExamples.

Definition cr : string := String CPython.CR "".

(** The header with its first name in lower case. *)
Definition renamed_header_fields : list string :=
  "episode" :: tail EXPECTED_HEADER.
Definition with_renamed_header : string :=
  unlines [join "," renamed_header_fields; good_line].

(** A good row, and a line with a carriage return inside a field, at which
    the reader raises. *)
Definition bare_cr_line : string := "a" +:+ cr +:+ "b".
Definition with_bare_cr : string := csv_text [good_line; bare_cr_line].
Definition bare_cr_error : exn :=
  Exn CsvError
    ("new-line character seen in unquoted field - "
     +:+ "do you need to open the file in universal-newline mode?").

(** The short row of [with_short_row], and then the line at which the
    reader raises. *)
Definition with_short_row_and_more : string :=
  csv_text [good_line; "a,b,c"; bare_cr_line].

(** The first ten columns of [good_fields], and twelve others. *)
Definition other_tail_fields : list string :=
  firstn 10 good_fields ++ repeat "?" 12.
Definition with_other_tail : string :=
  csv_text [join "," other_tail_fields; good_line].

(** The base64 encoding of the UTF-8 bytes of [two_rows]. *)
Definition two_rows_base64 : string :=
  "RXBpc29kZSxTdGVwLEhlYWx0aCxSZXdhcmQsWFZlbG9jaXR5LFlWZWxvY2l0eSxa"
  +:+ "VmVsb2NpdHksWFBvc2l0aW9uLFlQb3NpdGlvbixaUG9zaXRpb24sQWN0aW9uRm9y"
  +:+ "d2FyZFdpdGhEZXNjcmlwdGlvbixBY3Rpb25Sb3RhdGVXaXRoRGVzY3JpcHRpb24s"
  +:+ "V2FzQWdlbnRGcm96ZW4/LFdhc05vdGlmaWNhdGlvblNob3duPyxXYXNSZXdhcmRE"
  +:+ "aXNwZW5zZWQ/LERpc3BlbnNlZFJld2FyZFR5cGUsQ29sbGVjdGVkUmV3YXJkVHlw"
  +:+ "ZSxXYXNTcGF3bmVyQnV0dG9uVHJpZ2dlcmVkPyxDb21iaW5lZFNwYXduZXJJbmZv"
  +:+ "LERhdGFab25lTWVzc2FnZSxBY3RpdmVDYW1lcmEsQ29tYmluZWRSYXljYXN0RGF0"
  +:+ "YQ0KMSwwLDEwMC4wLDAuNSwwLjAsLTAuMjUsMS41LDMuMiwwLjUsMWUtMywxIChm"
  +:+ "b3J3YXJkKSwwIChub25lKSxGYWxzZSxGYWxzZSxGYWxzZSxOb25lLE5vbmUsRmFs"
  +:+ "c2UsLCwwLHgNCjEsMCwxMDAuMCwwLjUsMC4wLC0wLjI1LDEuNSwzLjIsMC41LDFl"
  +:+ "LTMsMSAoZm9yd2FyZCksMCAobm9uZSksRmFsc2UsRmFsc2UsRmFsc2UsTm9uZSxO"
  +:+ "b25lLEZhbHNlLCwsMCx4Cg==".

(** [quiet_world] with a decoder that knows one payload: base64 itself is
    not modelled. *)
Definition decoding_world : World := {|
  utcnow_isoformat := utcnow_isoformat quiet_world;
  md5_hexdigest := md5_hexdigest quiet_world;
  b64decode_utf8 := fun s =>
    if bool_decide (s = two_rows_base64) then Ok two_rows
    else b64decode_utf8 quiet_world s;
  put_object_error := put_object_error quiet_world;
  json_dumps := json_dumps quiet_world;
|}.

Definition base64_event : dict pyval :=
  [ ("encoding", PyStr "base64"); ("csv_data", PyStr two_rows_base64);
    ("session_id", PyStr "a1b2c3d4e5f6") ].

End MoreExamples.

Import MoreExamples.

(** * Notions for the further properties *)

Section Notions.
Context `{Builtins}.

(** The message for a first record that is not the header. *)
Definition header_mismatch_msg (header : list string) : string :=
  "Header mismatch. Expected " +:+ str_int (len EXPECTED_HEADER)
  +:+ " columns, got " +:+ str_int (len header).

(** The verdict, by what the reader gives: the records up to the first
    thing that stops the loop. *)
Inductive verdict_for : reader -> ValidationResult -> Prop :=
| vf_empty :
    verdict_for StopIteration (invalid "Empty CSV file")
| vf_header_error e :
    verdict_for (Throws e) (parsing_error e)
| vf_header_mismatch header rest :
    header <> EXPECTED_HEADER ->
    verdict_for (Yield header rest) (invalid (header_mismatch_msg header))
| vf_no_rows :
    verdict_for (Yield EXPECTED_HEADER StopIteration)
      (invalid "No data rows found")
| vf_valid rows :
    forallb accepted_row rows = true -> 1 <= len rows <= max_rows ->
    verdict_for (Yield EXPECTED_HEADER (yield_all rows StopIteration))
      (valid_with (len rows))
| vf_reader_error rows e :
    forallb accepted_row rows = true -> len rows <= max_rows ->
    verdict_for (Yield EXPECTED_HEADER (yield_all rows (Throws e)))
      (parsing_error e)
| vf_too_many rows row rest :
    forallb accepted_row rows = true -> len rows = max_rows ->
    verdict_for (Yield EXPECTED_HEADER (yield_all rows (Yield row rest)))
      (invalid too_many_rows_msg)
| vf_empty_record rows rest :
    forallb accepted_row rows = true -> len rows < max_rows ->
    verdict_for (Yield EXPECTED_HEADER (yield_all rows (Yield [] rest)))
      (parsing_error (Exn IndexError "list index out of range"))
| vf_column_count rows row rest :
    forallb accepted_row rows = true -> len rows < max_rows ->
    row <> [] -> accepted_row row = false -> len row <> 22 ->
    verdict_for (Yield EXPECTED_HEADER (yield_all rows (Yield row rest)))
      (invalid (column_count_msg (2 + len rows) row))
| vf_numeric rows row rest :
    forallb accepted_row rows = true -> len rows < max_rows ->
    len row = 22 -> numeric_columns_ok row = false ->
    verdict_for (Yield EXPECTED_HEADER (yield_all rows (Yield row rest)))
      (invalid (numeric_msg (2 + len rows))).

(** Two rows that the loop cannot tell apart: the same row, or two rows of
    22 columns with the same first ten. *)
Definition same_checked_columns (row row' : list string) : Prop :=
  row = row'
  \/ (len row = 22 /\ len row' = 22 /\ firstn 10 row = firstn 10 row').

End Notions.

Section HandlerNotions.
Context `{Builtins} (w : World).

(** The [csv_data], [encoding] and [session_id] that the handler reads. *)
Definition csv_data_of (event : dict pyval) : pyval :=
  dict_get event "csv_data" PyNone.

Definition encoding_of (event : dict pyval) : pyval :=
  dict_get event "encoding" (PyStr "plain").

Definition session_id_of (event : dict pyval) : pyval :=
  dict_get event "session_id" (PyStr (generate_session_id w 0)).

(** The storage key: [f"{user_id}/{session_id}.csv"]. *)
Definition s3_key_of (event : dict pyval) : string :=
  str_val (dict_get event "user_id" PyNone) +:+ "/"
  +:+ str_val (session_id_of event) +:+ ".csv".

(** The request of the upload of the validated text. *)
Definition upload_request (event : dict pyval) (text : string) : PutObject :=
  {| Bucket := BUCKET_NAME;
     Key := s3_key_of event;
     Body := text;
     ContentType := "text/csv";
     Metadata :=
       [ ("session_id", session_id_of event);
         ("row_count", PyStr (str_opt_int (row_count (validate_csv text))));
         ("upload_timestamp", PyStr (utcnow_isoformat w 1)) ] |}.

(** The response to a successful upload. *)
Definition success_response (event : dict pyval) (text : string) : Response :=
  {| statusCode := 200;
     headers := cors_headers;
     body :=
       json_dumps w
         [ ("message", JStr "Telemetry uploaded successfully");
           ("s3_key", JStr (s3_key_of event));
           ("row_count", json_opt_int (row_count (validate_csv text)));
           ("session_id", to_json (session_id_of event)) ] |}.

(** The payload decodes to [text]: [csv_data] is a non-empty string, and
    it is [text], or the base64 encoding of [text]. *)
Definition decodes_to (event : dict pyval) (text : string) : Prop :=
  exists csv,
    csv_data_of event = PyStr csv /\ csv <> ""
    /\ decode w (encoding_of event) csv = inl text.

(** The payload reaches the validator as [text]: it decodes to [text], and
    [text] is within the size limit. *)
Definition reaches_validation (event : dict pyval) (text : string) : Prop :=
  decodes_to event text /\ Z.of_nat (String.length text) <= MAX_FILE_SIZE.

(** The outcomes of the handler, by the first check that fails. *)
Inductive handled (event : dict pyval) (s3 : gmap string PutObject)
    : Response * gmap string PutObject -> Prop :=
| handled_missing :
    truthy (csv_data_of event) = false ->
    handled event s3
      (error_response w 400
         ("Missing csv_data in request body. Got " +:+ str_dict event), s3)
| handled_bad_base64 csv e :
    csv_data_of event = PyStr csv -> csv <> "" ->
    encoding_of event = PyStr "base64" ->
    b64decode_utf8 w csv = Raise e ->
    handled event s3
      (error_response w 400 ("Invalid base64 encoding: " +:+ exn_msg e), s3)
| handled_too_large text :
    decodes_to event text ->
    MAX_FILE_SIZE < Z.of_nat (String.length text) ->
    handled event s3
      (error_response w 413
         ("File too large. Max size: " +:+ str_int MAX_FILE_SIZE +:+ " bytes"),
       s3)
| handled_invalid text :
    reaches_validation event text ->
    valid (validate_csv text) = false ->
    handled event s3
      (error_response w 400
         ("Invalid CSV: " +:+ str_opt_str (error (validate_csv text))), s3)
| handled_upload_failed text e :
    reaches_validation event text ->
    valid (validate_csv text) = true ->
    put_object_error w (upload_request event text) = Some e ->
    handled event s3
      (error_response w 500 ("S3 upload failed: " +:+ exn_msg e), s3)
| handled_success text :
    reaches_validation event text ->
    valid (validate_csv text) = true ->
    put_object_error w (upload_request event text) = None ->
    handled event s3
      (success_response event text,
       <[s3_key_of event := upload_request event text]> s3).

End HandlerNotions.

(** * Properties of the validator *)

Section ValidatorFacts.
Context `{Builtins}.

Lemma len_cons {A} (x : A) (l : list A) : len (x :: l) = 1 + len l.
Proof. unfold len. cbn [length]. lia. Qed.

Lemma len_app {A} (l1 l2 : list A) : len (l1 ++ l2) = len l1 + len l2.
Proof. unfold len. rewrite length_app. lia. Qed.

Lemma len_nonneg {A} (l : list A) : 0 <= len l.
Proof. unfold len. lia. Qed.

Lemma len_header : len EXPECTED_HEADER = 22.
Proof. reflexivity. Qed.

(** ** One pass through the loop body *)

Lemma loop_body_over_cap n c row :
  max_rows < c ->
  loop_body n c row = Ok (Return (invalid too_many_rows_msg)).
Proof.
  intros Hc. unfold loop_body.
  destruct (Z.gtb_spec c max_rows); [reflexivity | lia].
Qed.

Lemma loop_body_empty_row n c :
  c <= max_rows ->
  loop_body n c [] = Raise (Exn IndexError "list index out of range").
Proof.
  intros Hc. unfold loop_body.
  destruct (Z.gtb_spec c max_rows); [lia | reflexivity].
Qed.

Lemma loop_body_short_row n c first others :
  c <= max_rows -> len (first :: others) <> 22 ->
  loop_body n c (first :: others) =
    Ok (if startswith first "Positive Goals Collected" then Continue
        else Return (invalid (column_count_msg n (first :: others)))).
Proof.
  intros Hc Hlen. unfold loop_body.
  destruct (Z.gtb_spec c max_rows); [lia |].
  rewrite len_header.
  destruct (Z.eqb_spec (len (first :: others)) 22); [contradiction |].
  cbn. destruct (startswith first _); reflexivity.
Qed.

(** The conversions of a row of 22 columns return, or raise a
    [ValueError]. *)
Lemma numeric_checks_full_row row :
  len row = 22 ->
  if numeric_columns_ok row then numeric_checks row = Ok tt
  else exists m, numeric_checks row = Raise (Exn ValueError m).
Proof.
  unfold len. intros Hlen.
  assert (length row = 22%nat) as Hn by lia. clear Hlen.
  do 22 (destruct row as [| ? row]; [discriminate |]).
  destruct row; [| discriminate]. clear Hn.
  unfold numeric_columns_ok, numeric_checks, int_parses, float_parses, py_int,
    py_float, column.
  cbn.
  repeat match goal with
    | |- context [int_error ?x] => destruct (int_error x); cbn; eauto
    | |- context [float_error ?x] => destruct (float_error x); cbn; eauto
    end.
Qed.

Lemma loop_body_full_row n c row :
  c <= max_rows -> len row = 22 ->
  loop_body n c row =
    Ok (if numeric_columns_ok row then Continue
        else Return (invalid (numeric_msg n))).
Proof.
  intros Hc Hlen. unfold loop_body.
  destruct (Z.gtb_spec c max_rows); [lia |].
  rewrite len_header, Hlen. cbn [Z.eqb Pos.eqb negb].
  pose proof (numeric_checks_full_row row Hlen) as Hnum.
  destruct (numeric_columns_ok row).
  - rewrite Hnum. reflexivity.
  - destruct Hnum as [m ->]. reflexivity.
Qed.

Lemma loop_body_accepted n c row :
  c <= max_rows -> accepted_row row = true ->
  loop_body n c row = Ok Continue.
Proof.
  intros Hc. unfold accepted_row, well_formed_row, summary_row.
  destruct (Z.eqb_spec (len row) 22) as [Hlen | Hlen]; cbn.
  - rewrite orb_false_r. intros Hok.
    rewrite loop_body_full_row, Hok by assumption. reflexivity.
  - destruct row as [| first others]; [discriminate |].
    intros Hmark. rewrite loop_body_short_row, Hmark by assumption.
    reflexivity.
Qed.

Lemma loop_body_outcome n c row : pass_outcome n c row (loop_body n c row).
Proof.
  destruct (Z.le_gt_cases c max_rows) as [Hc | Hc].
  2: { rewrite loop_body_over_cap by lia. constructor. lia. }
  destruct (accepted_row row) eqn:Hacc.
  { rewrite loop_body_accepted by assumption. constructor; assumption. }
  unfold accepted_row, well_formed_row, summary_row in Hacc.
  destruct (Z.eqb_spec (len row) 22) as [Hlen | Hlen]; cbn in Hacc.
  - rewrite orb_false_r in Hacc.
    rewrite loop_body_full_row, Hacc by assumption.
    constructor; assumption.
  - destruct row as [| first others].
    + rewrite loop_body_empty_row by assumption. constructor; auto.
    + rewrite loop_body_short_row, Hacc by assumption.
      constructor; try assumption; try discriminate.
      unfold accepted_row, well_formed_row, summary_row.
      destruct (Z.eqb_spec (len (first :: others)) 22); [contradiction |].
      cbn. exact Hacc.
Qed.

(** ** The loop *)

Lemma rows_loop_accepted rows : forall tl n c,
  forallb accepted_row rows = true ->
  c + len rows <= max_rows ->
  rows_loop (yield_all rows tl) n c = rows_loop tl (n + len rows) (c + len rows).
Proof.
  induction rows as [| row rows IH]; intros tl n c Hacc Hcap.
  - unfold len. cbn. f_equal; lia.
  - cbn in Hacc. apply andb_true_iff in Hacc as [Hrow Hrows].
    rewrite len_cons in *. pose proof (len_nonneg rows).
    cbn [yield_all rows_loop].
    rewrite loop_body_accepted by (assumption || lia).
    cbn. rewrite IH by (assumption || lia).
    f_equal; lia.
Qed.

(** A valid verdict: the reader gave accepted rows up to its end, and the
    verdict counts them. *)
Lemma rows_loop_valid rd : forall n c v,
  0 <= c <= max_rows ->
  rows_loop rd n c = Ok v -> valid v = true ->
  exists rows,
    rd = yield_all rows StopIteration /\ forallb accepted_row rows = true
    /\ 1 <= c + len rows <= max_rows /\ v = valid_with (c + len rows).
Proof.
  induction rd as [| row rest IH | e]; intros n c v Hc Hloop Hvalid.
  - injection Hloop as <-. unfold after_loop in *.
    destruct (Z.eqb_spec c 0); [discriminate |].
    exists []. unfold len. cbn. rewrite Z.add_0_r.
    repeat split; auto; lia.
  - cbn [rows_loop] in Hloop.
    destruct (loop_body_outcome n (c + 1) row) as [? | ? ? | Hle Hacc | ? | ?];
      cbn in Hloop; try discriminate;
      try (injection Hloop as <-; discriminate).
    assert (0 <= c + 1 <= max_rows) as Hc' by lia.
    destruct (IH _ _ _ Hc' Hloop Hvalid) as (rows & -> & Hrows & Hn & ->).
    exists (row :: rows). rewrite len_cons. cbn [forallb yield_all].
    rewrite Hacc, Hrows. repeat split; try lia. f_equal. lia.
  - discriminate.
Qed.

(** The exceptions that leave the loop: one thrown by the reader, or the
    index error of a record with no field. *)
Lemma rows_loop_raises rd : forall n c e,
  rows_loop rd n c = Raise e ->
  (exists rows, rd = yield_all rows (Throws e))
  \/ (exists rows rest, rd = yield_all rows (Yield [] rest)
                       /\ e = Exn IndexError "list index out of range").
Proof.
  induction rd as [| row rest IH | e']; intros n c e Hloop.
  - discriminate.
  - cbn [rows_loop] in Hloop.
    destruct (loop_body_outcome n (c + 1) row) as [? | ? -> | ? ? | ? | ?];
      cbn in Hloop; try discriminate.
    + injection Hloop as <-. right. exists [], rest. auto.
    + destruct (IH _ _ _ Hloop) as [[rows ->] | (rows & rest' & -> & ->)].
      * left. exists (row :: rows). reflexivity.
      * right. exists (row :: rows), rest'. auto.
  - injection Hloop as ->. left. exists []. reflexivity.
Qed.

Lemma yield_all_inj rows : forall rows' tl tl',
  length rows = length rows' ->
  yield_all rows tl = yield_all rows' tl' -> rows = rows' /\ tl = tl'.
Proof.
  induction rows as [| r rows IH]; intros [| r' rows'] tl tl'; cbn;
    try discriminate; auto.
  intros [= Hlen] [= -> Heq]. destruct (IH _ _ _ Hlen Heq) as [-> ->]. auto.
Qed.

Lemma yield_all_to_the_end rows : forall before row rest,
  yield_all rows StopIteration = yield_all before (Yield row rest) ->
  exists after, rows = before ++ row :: after.
Proof.
  induction rows as [| r rows IH]; intros [| b before] row rest; cbn;
    try discriminate.
  - intros [= -> _]. eauto.
  - intros [= -> Heq]. destruct (IH _ _ _ Heq) as [after ->]. eauto.
Qed.

(** ** From the loop to the verdict *)

Lemma validate_csv_after_header csv_data rest :
  csv_reader csv_data = Yield EXPECTED_HEADER rest ->
  validate_csv csv_data =
    match rows_loop rest 2 0 with
    | Ok v => v
    | Raise e => parsing_error e
    end.
Proof.
  intros Hrd. unfold validate_csv, validate_body. rewrite Hrd.
  rewrite bool_decide_true by reflexivity. reflexivity.
Qed.

(** A run of accepted rows up to the end of the input: the verdict is valid
    and counts every row of the run. *)
Lemma validate_csv_accepted_rows csv_data rows :
  csv_reader csv_data = Yield EXPECTED_HEADER (yield_all rows StopIteration) ->
  forallb accepted_row rows = true ->
  1 <= len rows <= max_rows ->
  validate_csv csv_data = valid_with (len rows).
Proof.
  intros Hrd Hacc [Hlo Hhi].
  rewrite (validate_csv_after_header _ _ Hrd).
  rewrite rows_loop_accepted by (assumption || lia).
  cbn [rows_loop]. unfold after_loop.
  destruct (Z.eqb_spec (0 + len rows) 0); [lia |].
  unfold valid_with. repeat f_equal.
Qed.

(** The other way round: a valid verdict comes from such a run. *)
Lemma validate_csv_valid csv_data :
  valid (validate_csv csv_data) = true ->
  exists rows,
    csv_reader csv_data = Yield EXPECTED_HEADER (yield_all rows StopIteration)
    /\ forallb accepted_row rows = true /\ 1 <= len rows <= max_rows.
Proof.
  unfold validate_csv, validate_body.
  destruct (csv_reader csv_data) as [| header rest | e]; try discriminate.
  destruct (bool_decide_reflect (header = EXPECTED_HEADER)) as [-> | _];
    [| discriminate].
  cbn [negb]. destruct (rows_loop rest 2 0) as [v | e] eqn:Hloop;
    [| discriminate].
  intros Hvalid.
  assert (0 <= 0 <= max_rows) as Hc by (unfold max_rows; lia).
  destruct (rows_loop_valid _ _ _ _ Hc Hloop Hvalid)
    as (rows & -> & Hacc & Hn & _).
  exists rows. auto.
Qed.

(** An input with a row that is not accepted, or with more than
    [max_rows] rows, is not valid. *)
Lemma validate_csv_not_valid csv_data rows row rest :
  csv_reader csv_data = Yield EXPECTED_HEADER (yield_all rows (Yield row rest)) ->
  accepted_row row = false \/ max_rows <= len rows ->
  valid (validate_csv csv_data) = false.
Proof.
  intros Hrd Hwhy. apply not_true_is_false. intros Hvalid.
  destruct (validate_csv_valid _ Hvalid) as (rows' & Hrd' & Hacc & Hn).
  rewrite Hrd in Hrd'. injection Hrd' as Heq. symmetry in Heq.
  apply yield_all_to_the_end in Heq as [after ->].
  rewrite forallb_app in Hacc. cbn in Hacc.
  rewrite len_app, len_cons in Hn. pose proof (len_nonneg after).
  destruct Hwhy as [Hrow | Hcap]; [| lia].
  rewrite Hrow, andb_false_r in Hacc. discriminate.
Qed.

(** The verdict when the loop reaches a row, after a run of accepted rows. *)
Lemma validate_csv_reaches csv_data rows row rest :
  csv_reader csv_data = Yield EXPECTED_HEADER (yield_all rows (Yield row rest)) ->
  forallb accepted_row rows = true ->
  len rows <= max_rows ->
  validate_csv csv_data =
    match
      s ← loop_body (2 + len rows) (len rows + 1) row;
      match s with
      | Return v => Ok v
      | Continue => rows_loop rest (2 + len rows + 1) (len rows + 1)
      end
    with
    | Ok v => v
    | Raise e => parsing_error e
    end.
Proof.
  intros Hrd Hacc Hcap.
  rewrite (validate_csv_after_header _ _ Hrd).
  rewrite rows_loop_accepted by (assumption || lia).
  cbn [rows_loop]. rewrite Z.add_0_l. reflexivity.
Qed.

Lemma well_formed_accepted rows :
  forallb well_formed_row rows = true -> forallb accepted_row rows = true.
Proof.
  rewrite !forallb_forall. intros Hwf r Hr. unfold accepted_row.
  rewrite (Hwf r Hr). reflexivity.
Qed.

(** ** Which row a message names *)

Lemma colon_free_uint d : colon_free (NilEmpty.string_of_uint d) = true.
Proof. induction d; cbn; auto. Qed.

Lemma colon_free_str_int n : colon_free (str_int n) = true.
Proof.
  unfold str_int, NilZero.string_of_int, NilZero.string_of_uint.
  destruct (Z.to_int n) as [d | d]; destruct d; cbn; auto using colon_free_uint.
  all: rewrite colon_free_uint; reflexivity.
Qed.

Lemma str_int_inj a b : str_int a = str_int b -> a = b.
Proof.
  intros Heq. apply (f_equal NilZero.int_of_string) in Heq.
  unfold str_int in Heq.
  assert (forall z, NilZero.int_of_string (NilZero.string_of_int (Z.to_int z))
                    = Some (Z.to_int z)) as Hisi.
  { intros z. apply NilZero.isi; destruct z; cbn; try discriminate;
      intros [= Hnil]; exact (DecimalPos.Unsigned.to_uint_nonnil _ Hnil). }
  rewrite !Hisi in Heq. injection Heq as Heq.
  rewrite <- (DecimalZ.of_to a), <- (DecimalZ.of_to b), Heq. reflexivity.
Qed.

(** Two texts that agree up to their first colon. *)
Lemma split_at_colon a b x y :
  colon_free a = true -> colon_free b = true ->
  a +:+ String ":" x = b +:+ String ":" y -> a = b /\ x = y.
Proof.
  revert b. induction a as [| c a IH]; intros [| d b]; cbn.
  - intros _ _ [= ->]. auto.
  - intros _ Hb [= <- _]. rewrite bool_decide_true in Hb by reflexivity.
    discriminate.
  - intros Ha _ [= -> _]. rewrite bool_decide_true in Ha by reflexivity.
    discriminate.
  - intros Ha Hb [= -> Heq].
    apply andb_true_iff in Ha as [_ Ha]. apply andb_true_iff in Hb as [_ Hb].
    destruct (IH b Ha Hb Heq) as [-> ->]. auto.
Qed.

Lemma numeric_msg_inj a b : numeric_msg a = numeric_msg b -> a = b.
Proof.
  unfold numeric_msg. intros [= Heq].
  apply split_at_colon in Heq as [Heq _]; auto using colon_free_str_int, str_int_inj.
Qed.

Lemma column_count_msg_inj a b row row' :
  column_count_msg a row = column_count_msg b row' -> a = b.
Proof.
  unfold column_count_msg. intros [= Heq].
  apply split_at_colon in Heq as [Heq _]; auto using colon_free_str_int, str_int_inj.
Qed.

Lemma numeric_msg_not_column_count a b row :
  numeric_msg a <> column_count_msg b row.
Proof.
  unfold numeric_msg, column_count_msg. intros [= Heq].
  apply split_at_colon in Heq as [_ Heq]; auto using colon_free_str_int.
  discriminate.
Qed.

Lemma names_row_numeric n k :
  names_row k (invalid (numeric_msg n)) -> k = n.
Proof.
  intros [Hm | [row Hm]]; cbn [error invalid] in Hm.
  - assert (numeric_msg n = numeric_msg k) as Heq by congruence.
    symmetry. exact (numeric_msg_inj _ _ Heq).
  - assert (numeric_msg n = column_count_msg k row) as Heq by congruence.
    contradiction (numeric_msg_not_column_count _ _ _ Heq).
Qed.

Lemma names_row_column_count n k row :
  names_row k (invalid (column_count_msg n row)) -> k = n.
Proof.
  intros [Hm | [row' Hm]]; cbn [error invalid] in Hm.
  - assert (numeric_msg k = column_count_msg n row) as Heq by congruence.
    contradiction (numeric_msg_not_column_count _ _ _ Heq).
  - assert (column_count_msg n row = column_count_msg k row') as Heq by congruence.
    symmetry. exact (column_count_msg_inj _ _ _ _ Heq).
Qed.

Lemma names_row_other k msg :
  (forall s, msg <> "Row " +:+ s) -> ~ names_row k (invalid msg).
Proof.
  intros Hmsg [Hm | [row Hm]]; cbn [error invalid] in Hm;
    injection Hm as Hm; exact (Hmsg _ Hm).
Qed.

(** A verdict that names row [k] was returned by the pass of the loop over
    the row with that number. *)
Lemma rows_loop_blame rd : forall n c v k,
  rows_loop rd n c = Ok v -> names_row k v ->
  exists rows row rest,
    rd = yield_all rows (Yield row rest) /\ k = n + len rows
    /\ loop_body k (c + len rows + 1) row = Ok (Return v).
Proof.
  induction rd as [| row rest IH | e]; intros n c v k Hloop Hk.
  - injection Hloop as <-. unfold after_loop in Hk.
    destruct (c =? 0).
    + apply names_row_other in Hk; [contradiction | discriminate].
    + destruct Hk as [Hm | [row Hm]]; discriminate.
  - cbn [rows_loop] in Hloop.
    pose proof (loop_body_outcome n (c + 1) row) as Hout.
    remember (loop_body n (c + 1) row) as pass eqn:Hpass in *.
    symmetry in Hpass.
    destruct Hout as [? | ? ? | ? ? | ? | ?]; cbn in Hloop; try discriminate.
    + injection Hloop as <-.
      apply names_row_other in Hk; [contradiction | discriminate].
    + destruct (IH _ _ _ _ Hloop Hk) as (rows & row' & rest' & -> & -> & Hret).
      exists (row :: rows), row', rest'. rewrite len_cons.
      replace (n + (1 + len rows)) with (n + 1 + len rows) by lia.
      replace (c + (1 + len rows) + 1) with (c + 1 + len rows + 1) by lia.
      auto.
    + injection Hloop as <-. apply names_row_column_count in Hk as ->.
      exists [], row, rest. unfold len. cbn [length yield_all].
      rewrite !Z.add_0_r. auto.
    + injection Hloop as <-. apply names_row_numeric in Hk as ->.
      exists [], row, rest. unfold len. cbn [length yield_all].
      rewrite !Z.add_0_r. auto.
  - discriminate.
Qed.

Lemma validate_csv_blame csv_data rows row rest :
  csv_reader csv_data = Yield EXPECTED_HEADER (yield_all rows (Yield row rest)) ->
  names_row (2 + len rows) (validate_csv csv_data) ->
  loop_body (2 + len rows) (len rows + 1) row = Ok (Return (validate_csv csv_data)).
Proof.
  intros Hrd Hk. rewrite (validate_csv_after_header _ _ Hrd) in *.
  destruct (rows_loop _ 2 0) as [v | e] eqn:Hloop.
  - destruct (rows_loop_blame _ _ _ _ _ Hloop Hk)
      as (rows' & row' & rest' & Heq & Hn & Hret).
    apply yield_all_inj in Heq as [<- [= <- _]]; [exact Hret |].
    unfold len in Hn. lia.
  - apply names_row_other in Hk; [contradiction | discriminate].
Qed.

(** The numeric message for the row after [rows] is about that row. *)
Lemma validate_csv_numeric_blame csv_data rows row rest :
  csv_reader csv_data = Yield EXPECTED_HEADER (yield_all rows (Yield row rest)) ->
  error (validate_csv csv_data) = Some (numeric_msg (2 + len rows)) ->
  len row = 22 /\ numeric_columns_ok row = false.
Proof.
  intros Hrd Herr.
  pose proof (validate_csv_blame _ _ _ _ Hrd (or_introl Herr)) as Hret.
  destruct (loop_body_outcome (2 + len rows) (len rows + 1) row)
    as [? | ? ? | ? ? | ? | ?]; try discriminate;
    injection Hret as Hret; rewrite <- Hret in Herr; cbn [error invalid] in Herr.
  - discriminate.
  - assert (numeric_msg (2 + len rows) = column_count_msg (2 + len rows) row)
      as Heq by congruence.
    contradiction (numeric_msg_not_column_count _ _ _ Heq).
  - auto.
Qed.

(** ** The shape of a verdict *)

Lemma invalid_shape msg : verdict_shape (invalid msg).
Proof. right. cbn. eauto. Qed.

Lemma validate_csv_shape csv_data : verdict_shape (validate_csv csv_data).
Proof.
  destruct (valid (validate_csv csv_data)) eqn:Hvalid.
  - destruct (validate_csv_valid _ Hvalid) as (rows & Hrd & Hacc & Hn).
    rewrite (validate_csv_accepted_rows _ _ Hrd Hacc Hn).
    left. cbn. repeat split. exists (len rows). auto.
  - revert Hvalid. unfold validate_csv, validate_body.
    destruct (csv_reader csv_data) as [| header rest | e];
      try (intros _; apply invalid_shape).
    destruct (negb _); [intros _; apply invalid_shape |].
    destruct (rows_loop rest 2 0) as [v | e] eqn:Hloop;
      [| intros _; apply invalid_shape].
    revert v Hloop. generalize 2 0.
    induction rest as [| row rest IH | e]; intros n c v Hloop Hvalid.
    + injection Hloop as <-. unfold after_loop in *.
      destruct (c =? 0); [apply invalid_shape | discriminate].
    + cbn [rows_loop] in Hloop.
      destruct (loop_body_outcome n (c + 1) row) as [? | ? ? | ? ? | ? | ?];
        cbn in Hloop; try discriminate;
        try (injection Hloop as <-; apply invalid_shape).
      exact (IH _ _ _ Hloop Hvalid).
    + discriminate.
Qed.

(** ** What the specification says of the validator *)

(** C1: when the first record of the CSV text is exactly the 22-column
    header and the remaining records are N well-formed data rows (22
    columns each, columns 0 and 1 parse as integers, columns 2 to 9 as
    floats), with 1 <= N <= 100000, the validator returns valid with
    row count N. *)
Theorem validate_well_formed_rows csv_data rows :
  csv_reader csv_data = Yield EXPECTED_HEADER (yield_all rows StopIteration) ->
  forallb well_formed_row rows = true ->
  1 <= len rows <= 100000 ->
  validate_csv csv_data =
    {| valid := true; error := None; row_count := Some (len rows) |}.
Proof.
  intros Hrd Hwf Hn.
  apply validate_csv_accepted_rows; auto using well_formed_accepted.
Qed.

(** C2: an input with a valid header and more than 100000 data rows is
    invalid and its verdict has no row count; when the first 100000 rows
    are accepted, the verdict is the one of too many rows, whatever the
    next record holds.  A pass of the loop returns that verdict exactly
    when the counter, after its increment, is above 100000. *)
Theorem too_many_rows_past_cap csv_data rows row rest :
  csv_reader csv_data = Yield EXPECTED_HEADER (yield_all rows (Yield row rest)) ->
  len rows = 100000 ->
  (valid (validate_csv csv_data) = false
   /\ row_count (validate_csv csv_data) = None)
  /\ (forallb accepted_row rows = true ->
      validate_csv csv_data =
        {| valid := false; error := Some "Too many rows (max 100000)";
           row_count := None |})
  /\ (forall n c r,
        loop_body n c r =
          Ok (Return {| valid := false;
                        error := Some "Too many rows (max 100000)";
                        row_count := None |})
        <-> 100000 < c).
Proof.
  intros Hrd Hn. split; [| split].
  - assert (valid (validate_csv csv_data) = false) as Hinvalid.
    { apply (validate_csv_not_valid _ _ _ _ Hrd). right. unfold max_rows. lia. }
    split; [exact Hinvalid |].
    destruct (validate_csv_shape csv_data) as [[Hvalid _] | (_ & _ & Hcount)];
      [congruence | exact Hcount].
  - intros Hacc.
    rewrite (validate_csv_reaches _ _ _ _ Hrd) by (assumption || (unfold max_rows; lia)).
    rewrite loop_body_over_cap by (unfold max_rows; lia). reflexivity.
  - intros n c r. split.
    + intros Hret.
      destruct (loop_body_outcome n c r) as [Hc | ? ? | ? ? | ? | ?];
        try discriminate; exact Hc.
    + intros Hc. apply loop_body_over_cap. exact Hc.
Qed.

(** C3: an input with a data row whose column count differs from 22 and
    whose first field does not start with the summary marker is invalid;
    when the loop reaches the row, the message names the logical number of
    the row (the header is row 1), the expected and the actual column
    counts, and the contents of the row. *)
Theorem wrong_column_count_reported csv_data rows first others rest :
  csv_reader csv_data =
    Yield EXPECTED_HEADER (yield_all rows (Yield (first :: others) rest)) ->
  len (first :: others) <> 22 ->
  startswith first "Positive Goals Collected" = false ->
  valid (validate_csv csv_data) = false
  /\ (forallb accepted_row rows = true ->
      len rows < 100000 ->
      validate_csv csv_data =
        {| valid := false;
           error := Some ("Row " +:+ str_int (2 + len rows)
                          +:+ ": Expected 22 columns, got "
                          +:+ str_int (len (first :: others))
                          +:+ ". (" +:+ str_list (first :: others) +:+ ")");
           row_count := None |}).
Proof.
  intros Hrd Hlen Hmark. split.
  - apply (validate_csv_not_valid _ _ _ _ Hrd). left.
    unfold accepted_row, well_formed_row, summary_row.
    destruct (Z.eqb_spec (len (first :: others)) 22); [contradiction |].
    cbn. exact Hmark.
  - intros Hacc Hcap.
    rewrite (validate_csv_reaches _ _ _ _ Hrd) by (assumption || (unfold max_rows; lia)).
    rewrite loop_body_short_row, Hmark by (assumption || (unfold max_rows; lia)).
    reflexivity.
Qed.

(** C4, as the code has it: a data row whose column count differs from 22
    and whose first field begins with the summary marker passes the loop
    body without any numeric conversion, and the validator never answers
    with the numeric message for that row.  (A row of exactly 22 columns is
    type-checked whatever its first field.) *)
Theorem summary_row_skips_numeric_checks csv_data rows first others rest :
  csv_reader csv_data =
    Yield EXPECTED_HEADER (yield_all rows (Yield (first :: others) rest)) ->
  len (first :: others) <> 22 ->
  startswith first "Positive Goals Collected" = true ->
  (forall n c, c <= 100000 -> loop_body n c (first :: others) = Ok Continue)
  /\ error (validate_csv csv_data) <>
       Some ("Row " +:+ str_int (2 + len rows)
             +:+ ": Invalid numeric values in required fields").
Proof.
  intros Hrd Hlen Hmark. split.
  - intros n c Hc. rewrite loop_body_short_row, Hmark by assumption. reflexivity.
  - intros Herr.
    destruct (validate_csv_numeric_blame _ _ _ _ Hrd Herr) as [Hlen' _].
    contradiction.
Qed.

(** C5: a data row with a wrong column count whose first field starts with
    the summary marker is accepted whatever its other fields hold, and it
    is counted: an input whose other rows are accepted validates with a row
    count that includes it. *)
Theorem summary_row_accepted_and_counted csv_data before first others after :
  csv_reader csv_data =
    Yield EXPECTED_HEADER
      (yield_all before (Yield (first :: others) (yield_all after StopIteration))) ->
  len (first :: others) <> 22 ->
  startswith first "Positive Goals Collected" = true ->
  forallb accepted_row before = true ->
  forallb accepted_row after = true ->
  len before + 1 + len after <= 100000 ->
  validate_csv csv_data =
    {| valid := true; error := None;
       row_count := Some (len before + 1 + len after) |}.
Proof.
  intros Hrd Hlen Hmark Hb Ha Hcap.
  pose proof (len_nonneg before). pose proof (len_nonneg after).
  rewrite (validate_csv_reaches _ _ _ _ Hrd) by (assumption || (unfold max_rows; lia)).
  rewrite loop_body_short_row, Hmark by (assumption || (unfold max_rows; lia)).
  cbn. rewrite rows_loop_accepted by (assumption || (unfold max_rows; lia)).
  cbn [rows_loop]. unfold after_loop.
  destruct (Z.eqb_spec (len before + 1 + len after) 0); [lia | reflexivity].
Qed.

(** C6, as the code has it: the validator returns a verdict for every
    input.  An exception that leaves the body of the validation (one
    thrown by the CSV reader, or the index error of a record with no
    field) is caught at the top level and reported as invalid with the
    message of a CSV parsing error followed by the message of the
    exception.  The [ValueError] of a numeric conversion does not get
    there: the handler of the row reports it with the numeric message of
    the row. *)
Theorem exceptions_become_verdicts csv_data :
  match validate_body csv_data with
  | Ok v => validate_csv csv_data = v
  | Raise e =>
      validate_csv csv_data =
        {| valid := false;
           error := Some ("CSV parsing error: " +:+ exn_msg e);
           row_count := None |}
      /\ ((exists rows, csv_reader csv_data = yield_all rows (Throws e))
          \/ (exists rows rest,
                csv_reader csv_data = yield_all rows (Yield [] rest)
                /\ e = Exn IndexError "list index out of range"))
  end
  /\ (forall n c row e,
        c <= 100000 -> len row = 22 -> numeric_checks row = Raise e ->
        exn_cls e = ValueError
        /\ loop_body n c row =
             Ok (Return {| valid := false;
                           error := Some ("Row " +:+ str_int n
                             +:+ ": Invalid numeric values in required fields");
                           row_count := None |})).
Proof.
  split.
  - unfold validate_csv.
    destruct (validate_body csv_data) as [v | e] eqn:Hbody; [reflexivity |].
    split; [reflexivity |].
    unfold validate_body in Hbody.
    destruct (csv_reader csv_data) as [| header rest | e'].
    + discriminate.
    + destruct (negb _); [discriminate |].
      destruct (rows_loop_raises _ _ _ _ Hbody) as [[rows ->] | (rows & rest' & -> & ->)].
      * left. exists (header :: rows). reflexivity.
      * right. exists (header :: rows), rest'. auto.
    + injection Hbody as ->. left. exists []. reflexivity.
  - intros n c row e Hc Hlen Hraise.
    pose proof (numeric_checks_full_row row Hlen) as Hnum.
    rewrite loop_body_full_row by assumption.
    destruct (numeric_columns_ok row).
    + rewrite Hnum in Hraise. discriminate.
    + destruct Hnum as [m Hm]. rewrite Hm in Hraise. injection Hraise as <-.
      auto.
Qed.

(** C7: every verdict of the validator has one of two shapes: valid, with a
    row count between 1 and 100000 and no error message, or invalid, with
    an error message and no row count. *)
Theorem verdict_has_one_of_two_shapes csv_data :
  let v := validate_csv csv_data in
  (valid v = true /\ error v = None
   /\ exists n, row_count v = Some n /\ 1 <= n <= 100000)
  \/ (valid v = false /\ (exists msg, error v = Some msg) /\ row_count v = None).
Proof. exact (validate_csv_shape csv_data). Qed.

(** C8: when the loop reaches a data row with exactly 22 columns, the
    validator fails with the message that names the number of that row and
    says that numeric values are invalid if and only if column 0 or 1 does
    not parse as an integer or one of columns 2 to 9 does not parse as a
    float.  The numeric conversions read the first ten columns only: rows
    that agree on them are checked alike. *)
Theorem numeric_failure_iff csv_data rows row rest :
  csv_reader csv_data = Yield EXPECTED_HEADER (yield_all rows (Yield row rest)) ->
  forallb accepted_row rows = true ->
  len rows < 100000 ->
  len row = 22 ->
  (validate_csv csv_data =
     {| valid := false;
        error := Some ("Row " +:+ str_int (2 + len rows)
                       +:+ ": Invalid numeric values in required fields");
        row_count := None |}
   <-> numeric_columns_ok row = false)
  /\ (forall row', firstn 10 row' = firstn 10 row ->
        numeric_checks row' = numeric_checks row).
Proof.
  intros Hrd Hacc Hcap Hlen. split; [split |].
  - intros Hv.
    apply (validate_csv_numeric_blame _ _ _ _ Hrd). rewrite Hv. reflexivity.
  - intros Hnum.
    rewrite (validate_csv_reaches _ _ _ _ Hrd) by (assumption || (unfold max_rows; lia)).
    rewrite loop_body_full_row, Hnum by (assumption || (unfold max_rows; lia)).
    reflexivity.
  - assert (forall r : list string,
             numeric_checks r = numeric_checks (firstn 10 r)) as Hfirst.
    { intros r. unfold numeric_checks, getitem. cbn [range Nat.sub seq for_each].
      rewrite !nth_error_firstn. reflexivity. }
    intros row' Heq. rewrite (Hfirst row'), (Hfirst row), Heq. reflexivity.
Qed.

(** C10: an input with a valid header and a record with no field among its
    data (a blank line gives one) is invalid, and its message is never the
    column-count message of that row; when the loop reaches the record, the
    message is the one of a CSV parsing error, made from the index error of
    the look at the first field. *)
Theorem empty_record_is_parsing_error csv_data rows rest :
  csv_reader csv_data = Yield EXPECTED_HEADER (yield_all rows (Yield [] rest)) ->
  valid (validate_csv csv_data) = false
  /\ error (validate_csv csv_data) <>
       Some ("Row " +:+ str_int (2 + len rows)
             +:+ ": Expected 22 columns, got 0. ([])")
  /\ (forallb accepted_row rows = true ->
      len rows < 100000 ->
      validate_csv csv_data =
        {| valid := false;
           error := Some "CSV parsing error: list index out of range";
           row_count := None |}).
Proof.
  intros Hrd. split; [| split].
  - apply (validate_csv_not_valid _ _ _ _ Hrd). left. reflexivity.
  - intros Herr.
    assert (names_row (2 + len rows) (validate_csv csv_data)) as Hk
      by (right; exists []; exact Herr).
    pose proof (validate_csv_blame _ _ _ _ Hrd Hk) as Hret.
    destruct (loop_body_outcome (2 + len rows) (len rows + 1) [])
      as [? | ? ? | ? ? | ? Hne | ? Hlen]; try discriminate.
    + injection Hret as Hret. rewrite <- Hret in Herr. discriminate.
    + contradiction.
  - intros Hacc Hcap.
    rewrite (validate_csv_reaches _ _ _ _ Hrd) by (assumption || (unfold max_rows; lia)).
    rewrite loop_body_empty_row by (unfold max_rows; lia).
    reflexivity.
Qed.

End ValidatorFacts.

(** * Properties of the handler *)

Section HandlerFacts.
Context `{Builtins} (w : World).

Lemma dict_get_absent {V} (d : dict V) key (default : V) :
  dict_has d key = false -> dict_get d key default = default.
Proof.
  induction d as [| [k v] d IH]; cbn; [reflexivity |].
  intros Hhas. apply orb_false_iff in Hhas as [Hk Hd].
  rewrite Hk. auto.
Qed.

(** C9: when the event has no [user_id] and the validation of the payload
    succeeds, the storage key that the handler builds is the text [None],
    a slash, the session id and [.csv].  The upload is requested under that
    key; when it succeeds the response is 200 and carries the key, and the
    object is in the bucket under it. *)
Theorem key_without_user_id event s3 csv text :
  dict_has event "user_id" = false ->
  dict_get event "csv_data" PyNone = PyStr csv ->
  csv <> "" ->
  decode w (dict_get event "encoding" (PyStr "plain")) csv = inl text ->
  Z.of_nat (String.length text) <= MAX_FILE_SIZE ->
  valid (validate_csv text) = true ->
  let session_id := dict_get event "session_id" (PyStr (generate_session_id w 0)) in
  let s3_key := "None/" +:+ str_val session_id +:+ ".csv" in
  let request :=
    {| Bucket := "test-csv-file-storage";
       Key := s3_key;
       Body := text;
       ContentType := "text/csv";
       Metadata :=
         [ ("session_id", session_id);
           ("row_count", PyStr (str_opt_int (row_count (validate_csv text))));
           ("upload_timestamp", PyStr (utcnow_isoformat w 1)) ] |} in
  match put_object_error w request with
  | None =>
      lambda_handler w event s3 =
        ({| statusCode := 200;
            headers := cors_headers;
            body :=
              json_dumps w
                [ ("message", JStr "Telemetry uploaded successfully");
                  ("s3_key", JStr s3_key);
                  ("row_count", json_opt_int (row_count (validate_csv text)));
                  ("session_id", to_json session_id) ] |},
         <[s3_key := request]> s3)
  | Some e =>
      lambda_handler w event s3 =
        (error_response w 500 ("S3 upload failed: " +:+ exn_msg e), s3)
  end.
Proof.
  intros Huser Hcsv Hne Hdec Hsize Hvalid. cbv zeta.
  unfold lambda_handler.
  rewrite (dict_get_absent _ _ _ Huser), Hcsv.
  cbn [truthy str_val]. rewrite bool_decide_false by assumption.
  cbn [negb]. rewrite Hdec.
  destruct (Z.gtb_spec (Z.of_nat (String.length text)) MAX_FILE_SIZE); [lia |].
  rewrite Hvalid. cbn [negb str_val]. unfold put_object.
  change BUCKET_NAME with "test-csv-file-storage".
  destruct (put_object_error w _); reflexivity.
Qed.

End HandlerFacts.

(** * Further properties of the validator *)

Section MoreValidatorFacts.
Context `{Builtins}.

(** The longest run of accepted rows at the start of a reader, up to [k]
    rows. *)
Lemma reader_accepted_prefix rd : forall k,
  0 <= k ->
  exists rows tl,
    rd = yield_all rows tl /\ forallb accepted_row rows = true /\ len rows <= k
    /\ match tl with
       | Yield row _ => accepted_row row = false \/ len rows = k
       | _ => True
       end.
Proof.
  induction rd as [| row rest IH | e]; intros k Hk.
  - exists [], StopIteration. unfold len. cbn. auto.
  - destruct (Z.eq_dec k 0) as [-> | Hpos].
    { exists [], (Yield row rest). unfold len. cbn. repeat split; auto; lia. }
    destruct (accepted_row row) eqn:Hrow.
    + destruct (IH (k - 1)) as (rows & tl & -> & Hacc & Hlen & Htl); [lia |].
      exists (row :: rows), tl. rewrite len_cons. cbn [yield_all forallb].
      rewrite Hrow, Hacc. repeat split; try lia.
      destruct tl; auto. destruct Htl; [auto | right; lia].
    + exists [], (Yield row rest). unfold len. cbn. repeat split; auto; lia.
  - exists [], (Throws e). unfold len. cbn. auto.
Qed.

Lemma rejected_row first others :
  len (first :: others) <> 22 ->
  startswith first "Positive Goals Collected" = false ->
  accepted_row (first :: others) = false.
Proof.
  intros Hlen Hmark. unfold accepted_row, well_formed_row, summary_row.
  destruct (Z.eqb_spec (len (first :: others)) 22); [contradiction |].
  cbn. exact Hmark.
Qed.

Lemma rejected_full_row row :
  len row = 22 -> numeric_columns_ok row = false -> accepted_row row = false.
Proof.
  intros Hlen Hnum. unfold accepted_row, well_formed_row, summary_row.
  rewrite Hlen, Hnum. reflexivity.
Qed.

(** The verdict of every input, by what its reader gives. *)
Lemma validate_csv_verdict_for csv_data :
  verdict_for (csv_reader csv_data) (validate_csv csv_data).
Proof.
  destruct (csv_reader csv_data) as [| header rest | e] eqn:Hrd.
  - unfold validate_csv, validate_body. rewrite Hrd. constructor.
  - destruct (decide (header = EXPECTED_HEADER)) as [-> | Hne].
    2: { unfold validate_csv, validate_body. rewrite Hrd.
         rewrite bool_decide_false by assumption. cbn [negb].
         apply vf_header_mismatch. assumption. }
    destruct (reader_accepted_prefix rest max_rows)
      as (rows & tl & -> & Hacc & Hlen & Htl); [unfold max_rows; lia |].
    pose proof (len_nonneg rows) as Hpos.
    destruct tl as [| row rest' | e].
    + destruct (Z.eq_dec (len rows) 0) as [Hzero | Hnz].
      * destruct rows; [| rewrite len_cons in Hzero; pose proof (len_nonneg rows); lia].
        rewrite (validate_csv_after_header _ _ Hrd). cbn. constructor.
      * rewrite (validate_csv_accepted_rows _ _ Hrd) by (assumption || lia).
        constructor; [assumption | lia].
    + rewrite (validate_csv_reaches _ _ _ _ Hrd) by assumption.
      destruct (loop_body_outcome (2 + len rows) (len rows + 1) row)
        as [Hc | Hc -> | Hc Hrow | Hc Hne Hrow Hcols | Hc Hcols Hnum]; cbn.
      * apply vf_too_many; [assumption | lia].
      * apply vf_empty_record; [assumption | lia].
      * destruct Htl as [Hrej | Hcap]; [congruence | lia].
      * apply vf_column_count; try assumption. lia.
      * apply vf_numeric; try assumption. lia.
    + rewrite (validate_csv_after_header _ _ Hrd).
      rewrite rows_loop_accepted by (assumption || lia).
      cbn. apply vf_reader_error; assumption.
  - unfold validate_csv, validate_body. rewrite Hrd. constructor.
Qed.

Lemma yield_all_stop_inj rows : forall rows',
  yield_all rows StopIteration = yield_all rows' StopIteration -> rows = rows'.
Proof.
  induction rows as [| r rows IH]; intros [| r' rows']; cbn; try discriminate.
  - reflexivity.
  - intros [= -> Heq]. rewrite (IH _ Heq). reflexivity.
Qed.

(** Once a pass does not go on, what the reader would give next plays no
    part. *)
Lemma rows_loop_stops rows : forall row rest rest' n c,
  accepted_row row = false \/ max_rows <= c + len rows ->
  rows_loop (yield_all rows (Yield row rest)) n c
  = rows_loop (yield_all rows (Yield row rest')) n c.
Proof.
  induction rows as [| r rows IH]; intros row rest rest' n c Hstop.
  - cbn [yield_all rows_loop].
    pose proof (loop_body_outcome n (c + 1) row) as Hout.
    destruct Hout as [? | ? ? | Hc Hrow | ? | ?]; try reflexivity.
    unfold len in Hstop. cbn in Hstop. destruct Hstop; [congruence | lia].
  - cbn [yield_all rows_loop].
    destruct (loop_body n (c + 1) r) as [[| v] | e]; cbn; try reflexivity.
    apply IH. rewrite len_cons in Hstop. destruct Hstop; [auto | right; lia].
Qed.

Lemma numeric_checks_first_ten row row' :
  firstn 10 row = firstn 10 row' -> numeric_checks row = numeric_checks row'.
Proof.
  assert (forall r : list string,
            numeric_checks r = numeric_checks (firstn 10 r)) as Hfirst.
  { intros r. unfold numeric_checks, getitem. cbn [range Nat.sub seq for_each].
    rewrite !nth_error_firstn. reflexivity. }
  intros Heq. rewrite (Hfirst row), (Hfirst row'), Heq. reflexivity.
Qed.

Lemma loop_body_same_checked n c row row' :
  same_checked_columns row row' -> loop_body n c row = loop_body n c row'.
Proof.
  intros [-> | (Hlen & Hlen' & Hten)]; [reflexivity |].
  unfold loop_body. rewrite Hlen, Hlen', (numeric_checks_first_ten _ _ Hten).
  reflexivity.
Qed.

Lemma rows_loop_same_checked rows rows' tl :
  Forall2 same_checked_columns rows rows' ->
  forall n c,
    rows_loop (yield_all rows tl) n c = rows_loop (yield_all rows' tl) n c.
Proof.
  induction 1 as [| row row' rows rows' Hrow _ IH]; intros n c; [reflexivity |].
  cbn [yield_all rows_loop]. rewrite (loop_body_same_checked _ _ _ _ Hrow).
  destruct (loop_body n (c + 1) row') as [[| v] | e]; cbn; auto.
Qed.

(** ** What the code shows beyond the specification's statements *)

(** X1: the verdict is valid exactly when the reader gives the header and
    then between 1 and 100000 rows, each of them well-formed or a summary
    row, up to the end of the input; the row count is then the number of
    those rows. *)
Theorem valid_exactly_for_accepted_rows csv_data :
  (valid (validate_csv csv_data) = true
   <-> exists rows,
         csv_reader csv_data = Yield EXPECTED_HEADER (yield_all rows StopIteration)
         /\ forallb accepted_row rows = true /\ 1 <= len rows <= 100000)
  /\ (forall rows,
        csv_reader csv_data = Yield EXPECTED_HEADER (yield_all rows StopIteration) ->
        valid (validate_csv csv_data) = true ->
        row_count (validate_csv csv_data) = Some (len rows)).
Proof.
  split; [split |].
  - apply validate_csv_valid.
  - intros (rows & Hrd & Hacc & Hn).
    rewrite (validate_csv_accepted_rows _ _ Hrd Hacc Hn). reflexivity.
  - intros rows Hrd Hvalid.
    destruct (validate_csv_valid _ Hvalid) as (rows' & Hrd' & Hacc & Hn).
    rewrite Hrd in Hrd'. injection Hrd' as Heq.
    apply yield_all_stop_inj in Heq as <-.
    rewrite (validate_csv_accepted_rows _ _ Hrd Hacc Hn). reflexivity.
Qed.

(** X2: the message of an empty file is given exactly when the reader has
    no record at all, not even a header. *)
Theorem empty_file_exactly_without_records csv_data :
  validate_csv csv_data = invalid "Empty CSV file"
  <-> csv_reader csv_data = StopIteration.
Proof.
  split.
  - intros Hv. pose proof (validate_csv_verdict_for csv_data) as Hvf.
    rewrite Hv in Hvf.
    remember (invalid "Empty CSV file") as v eqn:Hmsg.
    destruct Hvf; try discriminate; reflexivity.
  - intros Hrd. unfold validate_csv, validate_body. rewrite Hrd. reflexivity.
Qed.

(** X3: when the first record is not exactly the header, the verdict is the
    header mismatch with the number of fields of that record, whatever the
    reader gives after it; and that verdict is given in no other case.  A
    first record of 22 fields with another name is reported as 22 columns
    expected, 22 got. *)
Theorem header_mismatch_exactly_for_another_first_record csv_data header rest :
  csv_reader csv_data = Yield header rest ->
  (header <> EXPECTED_HEADER
   <-> validate_csv csv_data =
         invalid ("Header mismatch. Expected 22 columns, got "
                  +:+ str_int (len header))).
Proof.
  intros Hrd. split.
  - intros Hne. unfold validate_csv, validate_body. rewrite Hrd.
    rewrite bool_decide_false by assumption. reflexivity.
  - intros Hv Heq. subst header.
    pose proof (validate_csv_verdict_for csv_data) as Hvf.
    rewrite Hv, Hrd in Hvf.
    remember (invalid _) as v eqn:Hmsg in Hvf.
    remember (Yield EXPECTED_HEADER rest) as rd eqn:Hshape in Hvf.
    destruct Hvf; try discriminate.
    injection Hshape as Hh _. contradiction.
Qed.

(** X4: the message that no data rows were found is given exactly when the
    reader gives the header and nothing after it. *)
Theorem no_data_rows_exactly_for_header_alone csv_data :
  validate_csv csv_data = invalid "No data rows found"
  <-> csv_reader csv_data = Yield EXPECTED_HEADER StopIteration.
Proof.
  split.
  - intros Hv. pose proof (validate_csv_verdict_for csv_data) as Hvf.
    rewrite Hv in Hvf.
    remember (invalid "No data rows found") as v eqn:Hmsg.
    destruct Hvf; try discriminate; reflexivity.
  - intros Hrd. rewrite (validate_csv_after_header _ _ Hrd). reflexivity.
Qed.

(** X5: the verdict of too many rows is given exactly when the reader gives
    the header, 100000 accepted rows and one more record. *)
Theorem too_many_rows_exactly_past_cap csv_data :
  validate_csv csv_data = invalid "Too many rows (max 100000)"
  <-> exists rows row rest,
        csv_reader csv_data =
          Yield EXPECTED_HEADER (yield_all rows (Yield row rest))
        /\ forallb accepted_row rows = true /\ len rows = 100000.
Proof.
  split.
  - intros Hv. pose proof (validate_csv_verdict_for csv_data) as Hvf.
    rewrite Hv in Hvf.
    remember (invalid "Too many rows (max 100000)") as v eqn:Hmsg.
    destruct Hvf; try discriminate. eauto 6.
  - intros (rows & row & rest & Hrd & Hacc & Hn).
    rewrite (validate_csv_reaches _ _ _ _ Hrd) by (assumption || (unfold max_rows; lia)).
    rewrite loop_body_over_cap by (unfold max_rows; lia). reflexivity.
Qed.

(** X6: when the reader raises after the header and at most 100000 accepted
    rows, the verdict is the CSV parsing error with the message of that
    exception; after exactly 100000 rows this is still a parsing error, not
    the verdict of too many rows and not a valid one. *)
Theorem reader_error_after_rows csv_data rows e :
  csv_reader csv_data = Yield EXPECTED_HEADER (yield_all rows (Throws e)) ->
  forallb accepted_row rows = true ->
  len rows <= 100000 ->
  validate_csv csv_data =
    {| valid := false;
       error := Some ("CSV parsing error: " +:+ exn_msg e);
       row_count := None |}.
Proof.
  intros Hrd Hacc Hn.
  rewrite (validate_csv_after_header _ _ Hrd).
  rewrite rows_loop_accepted by (assumption || (unfold max_rows; lia)).
  reflexivity.
Qed.

(** X7: the loop stops at the first row that is not accepted, and at the
    row after the first 100000: two inputs that agree up to such a row get
    the same verdict, whatever comes after it. *)
Theorem verdict_ignores_what_follows_a_failure
    csv_data csv_data' rows row rest rest' :
  csv_reader csv_data = Yield EXPECTED_HEADER (yield_all rows (Yield row rest)) ->
  csv_reader csv_data' = Yield EXPECTED_HEADER (yield_all rows (Yield row rest')) ->
  accepted_row row = false \/ 100000 <= len rows ->
  validate_csv csv_data = validate_csv csv_data'.
Proof.
  intros Hrd Hrd' Hstop.
  rewrite (validate_csv_after_header _ _ Hrd), (validate_csv_after_header _ _ Hrd').
  rewrite (rows_loop_stops rows row rest rest'); [reflexivity |].
  destruct Hstop; [auto | right; unfold max_rows; lia].
Qed.

(** X8: when the message of the verdict names row k (a column-count or a
    numeric message), the reader gave the header and k - 2 accepted rows,
    fewer than 100000, and the next row, the one numbered k, is not
    accepted. *)
Theorem named_row_is_first_rejected csv_data k :
  names_row k (validate_csv csv_data) ->
  exists rows row rest,
    csv_reader csv_data = Yield EXPECTED_HEADER (yield_all rows (Yield row rest))
    /\ k = 2 + len rows /\ len rows < 100000
    /\ forallb accepted_row rows = true /\ accepted_row row = false.
Proof.
  intros Hk. pose proof (validate_csv_verdict_for csv_data) as Hvf.
  remember (validate_csv csv_data) as v eqn:Hv. clear Hv.
  destruct Hvf as [| e | header rest Hne | | rows Hacc Hn | rows e Hacc Hn
                   | rows row rest Hacc Hn | rows rest Hacc Hn
                   | rows row rest Hacc Hn Hne Hrow Hlen
                   | rows row rest Hacc Hn Hlen Hnum].
  - apply names_row_other in Hk; [contradiction | discriminate].
  - apply names_row_other in Hk; [contradiction | discriminate].
  - apply names_row_other in Hk; [contradiction | discriminate].
  - apply names_row_other in Hk; [contradiction | discriminate].
  - destruct Hk as [Hm | [row Hm]]; discriminate.
  - apply names_row_other in Hk; [contradiction | discriminate].
  - apply names_row_other in Hk; [contradiction | discriminate].
  - apply names_row_other in Hk; [contradiction | discriminate].
  - apply names_row_column_count in Hk as ->.
    exists rows, row, rest. auto 6.
  - apply names_row_numeric in Hk as ->.
    exists rows, row, rest. repeat split; auto using rejected_full_row.
Qed.

(** X9: the validator never reads columns 10 to 21 of a row of 22 columns:
    two inputs whose rows are the same, or are rows of 22 columns with the
    same first ten, get the same verdict. *)
Theorem verdict_ignores_columns_from_ten csv_data csv_data' rows rows' tl :
  csv_reader csv_data = Yield EXPECTED_HEADER (yield_all rows tl) ->
  csv_reader csv_data' = Yield EXPECTED_HEADER (yield_all rows' tl) ->
  Forall2 same_checked_columns rows rows' ->
  validate_csv csv_data = validate_csv csv_data'.
Proof.
  intros Hrd Hrd' Hsame.
  rewrite (validate_csv_after_header _ _ Hrd), (validate_csv_after_header _ _ Hrd').
  rewrite (rows_loop_same_checked _ _ tl Hsame). reflexivity.
Qed.

End MoreValidatorFacts.

(** * Further properties of the handler *)

Section MoreHandlerFacts.
Context `{Builtins} (w : World).

Lemma truthy_str csv : truthy (PyStr csv) = true <-> csv <> "".
Proof.
  cbn. destruct (bool_decide_reflect (csv = "")); cbn; split; congruence.
Qed.

(** The decoding fails only for the encoding [base64], with the exception
    of the decoder. *)
Lemma decode_fails encoding csv response :
  decode w encoding csv = inr response ->
  encoding = PyStr "base64"
  /\ exists e, b64decode_utf8 w csv = Raise e
               /\ response =
                    error_response w 400
                      ("Invalid base64 encoding: " +:+ exn_msg e).
Proof.
  unfold decode.
  destruct (bool_decide_reflect (encoding = PyStr "base64")) as [Henc | _];
    [| discriminate].
  destruct (b64decode_utf8 w csv) as [text | e]; [discriminate |].
  intros [= <-]. eauto.
Qed.

(** Every run of the handler is one of the six outcomes. *)
Lemma lambda_handler_handled event s3 :
  handled w event s3 (lambda_handler w event s3).
Proof.
  unfold lambda_handler.
  fold (csv_data_of event) (encoding_of event).
  destruct (truthy (csv_data_of event)) eqn:Htruthy; cbn [negb].
  2: { apply handled_missing. exact Htruthy. }
  destruct (csv_data_of event) as [| csv] eqn:Hcsv; [discriminate |].
  apply truthy_str in Htruthy. cbn [str_val].
  destruct (decode w (encoding_of event) csv) as [text | response] eqn:Hdec.
  2: { apply decode_fails in Hdec as (Henc & e & Hraise & ->).
       eapply handled_bad_base64; eassumption. }
  assert (decodes_to w event text) as Hdecodes by (exists csv; auto).
  destruct (Z.gtb_spec (Z.of_nat (String.length text)) MAX_FILE_SIZE) as [Hbig | Hfits].
  { apply (handled_too_large w event s3 text); assumption. }
  assert (reaches_validation w event text) as Hreach by (split; assumption).
  destruct (valid (validate_csv text)) eqn:Hvalid; cbn [negb].
  2: { apply (handled_invalid w event s3 text); assumption. }
  unfold put_object.
  change {| Bucket := BUCKET_NAME; Key := _; Body := text;
            ContentType := _; Metadata := _ |}
    with (upload_request w event text).
  destruct (put_object_error w (upload_request w event text)) as [e |] eqn:Hput.
  - apply (handled_upload_failed w event s3 text e); assumption.
  - apply (handled_success w event s3 text); assumption.
Qed.

(** The handler after a payload that decodes. *)
Lemma lambda_handler_decoded event s3 text :
  decodes_to w event text ->
  lambda_handler w event s3 =
    if Z.of_nat (String.length text) >? MAX_FILE_SIZE then
      (error_response w 413
         ("File too large. Max size: " +:+ str_int MAX_FILE_SIZE +:+ " bytes"),
       s3)
    else if negb (valid (validate_csv text)) then
      (error_response w 400
         ("Invalid CSV: " +:+ str_opt_str (error (validate_csv text))), s3)
    else
      match put_object_error w (upload_request w event text) with
      | Some e => (error_response w 500 ("S3 upload failed: " +:+ exn_msg e), s3)
      | None =>
          (success_response w event text,
           <[s3_key_of w event := upload_request w event text]> s3)
      end.
Proof.
  intros (csv & Hcsv & Hne & Hdec). unfold lambda_handler.
  fold (csv_data_of event) (encoding_of event). rewrite Hcsv.
  cbn [truthy str_val]. rewrite bool_decide_false by assumption.
  cbn [negb]. rewrite Hdec.
  destruct (Z.of_nat (String.length text) >? MAX_FILE_SIZE); [reflexivity |].
  destruct (negb (valid (validate_csv text))); [reflexivity |].
  unfold put_object.
  change {| Bucket := BUCKET_NAME; Key := _; Body := text;
            ContentType := _; Metadata := _ |}
    with (upload_request w event text).
  destruct (put_object_error w (upload_request w event text)); reflexivity.
Qed.

Lemma lambda_handler_validated event s3 text :
  reaches_validation w event text ->
  lambda_handler w event s3 =
    if negb (valid (validate_csv text)) then
      (error_response w 400
         ("Invalid CSV: " +:+ str_opt_str (error (validate_csv text))), s3)
    else
      match put_object_error w (upload_request w event text) with
      | Some e => (error_response w 500 ("S3 upload failed: " +:+ exn_msg e), s3)
      | None =>
          (success_response w event text,
           <[s3_key_of w event := upload_request w event text]> s3)
      end.
Proof.
  intros [Hdec Hsize]. rewrite (lambda_handler_decoded _ _ _ Hdec).
  destruct (Z.gtb_spec (Z.of_nat (String.length text)) MAX_FILE_SIZE);
    [lia | reflexivity].
Qed.

Lemma lambda_handler_missing event s3 :
  truthy (csv_data_of event) = false ->
  lambda_handler w event s3 =
    (error_response w 400
       ("Missing csv_data in request body. Got " +:+ str_dict event), s3).
Proof.
  intros Hfalsy. unfold lambda_handler. fold (csv_data_of event).
  unfold csv_data_of in Hfalsy. unfold csv_data_of. rewrite Hfalsy. reflexivity.
Qed.

Lemma lambda_handler_bad_base64 event s3 csv e :
  csv_data_of event = PyStr csv -> csv <> "" ->
  encoding_of event = PyStr "base64" ->
  b64decode_utf8 w csv = Raise e ->
  lambda_handler w event s3 =
    (error_response w 400 ("Invalid base64 encoding: " +:+ exn_msg e), s3).
Proof.
  intros Hcsv Hne Henc Hraise. unfold lambda_handler.
  fold (csv_data_of event) (encoding_of event). rewrite Hcsv, Henc.
  cbn [truthy str_val]. rewrite bool_decide_false by assumption.
  cbn [negb]. unfold decode. rewrite bool_decide_true by reflexivity.
  rewrite Hraise. reflexivity.
Qed.

Lemma decodes_to_unique event text text' :
  decodes_to w event text -> decodes_to w event text' -> text = text'.
Proof.
  intros (csv & Hcsv & _ & Hdec) (csv' & Hcsv' & _ & Hdec').
  rewrite Hcsv in Hcsv'. injection Hcsv' as <-.
  rewrite Hdec in Hdec'. injection Hdec' as <-. reflexivity.
Qed.


(** ** What the code of the handler shows *)

(** X10: every response of the handler, on every path, has the three
    headers of [error_response] and of the success response, and a status
    among 200, 400, 413 and 500. *)
Theorem response_is_well_formed event s3 :
  headers (fst (lambda_handler w event s3)) =
    [ ("Access-Control-Allow-Origin", "*");
      ("Access-Control-Allow-Headers", "Content-Type");
      ("Content-Type", "application/json") ]
  /\ (statusCode (fst (lambda_handler w event s3)) = 200
      \/ statusCode (fst (lambda_handler w event s3)) = 400
      \/ statusCode (fst (lambda_handler w event s3)) = 413
      \/ statusCode (fst (lambda_handler w event s3)) = 500).
Proof.
  destruct (lambda_handler_handled event s3); cbn; auto 6.
Qed.

(** X11: the handler writes to the bucket on success only.  A response
    other than 200 leaves the bucket as it was; with a 200 the bucket holds
    the validated text under the key made of [user_id] and [session_id],
    with the content type of CSV, and every other key is as before: an
    older object under the same key is replaced, nothing is deleted. *)
Theorem bucket_changes_only_on_success event s3 :
  (statusCode (fst (lambda_handler w event s3)) <> 200
   /\ snd (lambda_handler w event s3) = s3)
  \/ (statusCode (fst (lambda_handler w event s3)) = 200
      /\ exists text object,
           reaches_validation w event text
           /\ valid (validate_csv text) = true
           /\ snd (lambda_handler w event s3) !! s3_key_of w event = Some object
           /\ Key object = s3_key_of w event
           /\ Body object = text
           /\ ContentType object = "text/csv"
           /\ forall key, key <> s3_key_of w event ->
                snd (lambda_handler w event s3) !! key = s3 !! key).
Proof.
  destruct (lambda_handler_handled event s3) as [| | | | | text Hreach Hvalid Hput];
    cbn [fst snd]; try (left; split; [discriminate | reflexivity]).
  right. split; [reflexivity |].
  exists text, (upload_request w event text).
  rewrite lookup_insert_eq.
  split; [exact Hreach |]. split; [exact Hvalid |].
  split; [reflexivity |]. split; [reflexivity |].
  split; [reflexivity |]. split; [reflexivity |].
  intros key Hkey. rewrite lookup_insert_ne by congruence. reflexivity.
Qed.

(** X12: the handler answers 200 exactly when the payload reaches the
    validator (a non-empty [csv_data] that decodes to a text within the
    size limit), the text is valid and [put_object] does not raise; the
    response then carries the key, the row count and the session id. *)
Theorem success_exactly_when_all_checks_pass event s3 :
  (statusCode (fst (lambda_handler w event s3)) = 200
   <-> exists text,
         reaches_validation w event text
         /\ valid (validate_csv text) = true
         /\ put_object_error w (upload_request w event text) = None)
  /\ (forall text,
        reaches_validation w event text ->
        valid (validate_csv text) = true ->
        put_object_error w (upload_request w event text) = None ->
        fst (lambda_handler w event s3) =
          {| statusCode := 200;
             headers := cors_headers;
             body :=
               json_dumps w
                 [ ("message", JStr "Telemetry uploaded successfully");
                   ("s3_key", JStr (s3_key_of w event));
                   ("row_count", json_opt_int (row_count (validate_csv text)));
                   ("session_id", to_json (session_id_of w event)) ] |}).
Proof.
  split; [split |].
  - destruct (lambda_handler_handled event s3); cbn; try discriminate. eauto.
  - intros (text & Hreach & Hvalid & Hput).
    rewrite (lambda_handler_validated _ _ _ Hreach), Hvalid, Hput. reflexivity.
  - intros text Hreach Hvalid Hput.
    rewrite (lambda_handler_validated _ _ _ Hreach), Hvalid, Hput. reflexivity.
Qed.

(** X13: the handler answers 413 exactly when the payload decodes to a text
    of more than 10485760 bytes; the size is that of the decoded text, it
    is checked before the validation, and a text of exactly 10485760 bytes
    passes the check. *)
Theorem too_large_exactly_past_the_limit event s3 :
  (statusCode (fst (lambda_handler w event s3)) = 413
   <-> exists text,
         decodes_to w event text
         /\ 10485760 < Z.of_nat (String.length text))
  /\ (forall text,
        decodes_to w event text ->
        10485760 < Z.of_nat (String.length text) ->
        lambda_handler w event s3 =
          (error_response w 413 "File too large. Max size: 10485760 bytes", s3)).
Proof.
  assert (forall text,
            decodes_to w event text ->
            10485760 < Z.of_nat (String.length text) ->
            lambda_handler w event s3 =
              (error_response w 413 "File too large. Max size: 10485760 bytes",
               s3)) as Hlarge.
  { intros text Hdec Hbig. rewrite (lambda_handler_decoded _ _ _ Hdec).
    destruct (Z.gtb_spec (Z.of_nat (String.length text)) MAX_FILE_SIZE) as [_ | Hle];
      [reflexivity | unfold MAX_FILE_SIZE in Hle; lia]. }
  split; [split |].
  - destruct (lambda_handler_handled event s3) as [| | text Hdec Hbig | | |];
      cbn; try discriminate. eauto.
  - intros (text & Hdec & Hbig). rewrite (Hlarge _ Hdec Hbig). reflexivity.
  - exact Hlarge.
Qed.

(** X14: the handler answers 400 in exactly three cases: [csv_data] is
    missing, [None] or empty (the message echoes the event); the encoding
    is [base64] and the decoding raises (the message carries that of the
    exception); or the text reaches the validator and is invalid (the
    message carries the error of the verdict, which is always there). *)
Theorem client_error_exactly_in_three_cases event s3 :
  (statusCode (fst (lambda_handler w event s3)) = 400
   <-> truthy (csv_data_of event) = false
       \/ (exists csv e,
             csv_data_of event = PyStr csv /\ csv <> ""
             /\ encoding_of event = PyStr "base64"
             /\ b64decode_utf8 w csv = Raise e)
       \/ (exists text,
             reaches_validation w event text
             /\ valid (validate_csv text) = false))
  /\ (truthy (csv_data_of event) = false ->
      lambda_handler w event s3 =
        (error_response w 400
           ("Missing csv_data in request body. Got " +:+ str_dict event), s3))
  /\ (forall csv e,
        csv_data_of event = PyStr csv -> csv <> "" ->
        encoding_of event = PyStr "base64" ->
        b64decode_utf8 w csv = Raise e ->
        lambda_handler w event s3 =
          (error_response w 400 ("Invalid base64 encoding: " +:+ exn_msg e), s3))
  /\ (forall text,
        reaches_validation w event text ->
        valid (validate_csv text) = false ->
        exists msg,
          error (validate_csv text) = Some msg
          /\ lambda_handler w event s3 =
               (error_response w 400 ("Invalid CSV: " +:+ msg), s3)).
Proof.
  assert (forall text,
            reaches_validation w event text ->
            valid (validate_csv text) = false ->
            exists msg,
              error (validate_csv text) = Some msg
              /\ lambda_handler w event s3 =
                   (error_response w 400 ("Invalid CSV: " +:+ msg), s3))
    as Hinvalid.
  { intros text Hreach Hvalid.
    rewrite (lambda_handler_validated _ _ _ Hreach), Hvalid. cbn [negb].
    destruct (validate_csv_shape text) as [[Hv _] | (_ & [msg Hmsg] & _)];
      [congruence |].
    exists msg. rewrite Hmsg. auto. }
  split; [split | split; [| split]].
  - destruct (lambda_handler_handled event s3); cbn; try discriminate; eauto 8.
  - intros [Hfalsy | [(csv & e & Hcsv & Hne & Henc & Hraise) | (text & Hreach & Hvalid)]].
    + rewrite (lambda_handler_missing _ _ Hfalsy). reflexivity.
    + rewrite (lambda_handler_bad_base64 _ _ _ _ Hcsv Hne Henc Hraise). reflexivity.
    + destruct (Hinvalid _ Hreach Hvalid) as (msg & _ & ->). reflexivity.
  - apply lambda_handler_missing.
  - intros csv e. apply lambda_handler_bad_base64.
  - exact Hinvalid.
Qed.


(** X16: with a 200, the row count of the response and of the metadata of
    the stored object is the number of records that the reader gives after
    the header, between 1 and 100000. *)
Theorem success_reports_the_number_of_rows event s3 :
  statusCode (fst (lambda_handler w event s3)) = 200 ->
  exists text rows object,
    reaches_validation w event text
    /\ csv_reader text = Yield EXPECTED_HEADER (yield_all rows StopIteration)
    /\ 1 <= len rows <= 100000
    /\ body (fst (lambda_handler w event s3)) =
         json_dumps w
           [ ("message", JStr "Telemetry uploaded successfully");
             ("s3_key", JStr (s3_key_of w event));
             ("row_count", JInt (len rows));
             ("session_id", to_json (session_id_of w event)) ]
    /\ snd (lambda_handler w event s3) !! s3_key_of w event = Some object
    /\ Metadata object =
         [ ("session_id", session_id_of w event);
           ("row_count", PyStr (str_int (len rows)));
           ("upload_timestamp", PyStr (utcnow_isoformat w 1)) ].
Proof.
  destruct (lambda_handler_handled event s3) as [| | | | | text Hreach Hvalid Hput];
    cbn [fst snd]; try discriminate.
  intros _.
  destruct (validate_csv_valid _ Hvalid) as (rows & Hrd & Hacc & Hn).
  pose proof (validate_csv_accepted_rows _ _ Hrd Hacc Hn) as Hv.
  exists text, rows, (upload_request w event text).
  rewrite lookup_insert_eq. unfold success_response, upload_request.
  rewrite Hv. cbn [valid_with row_count json_opt_int str_opt_int body Metadata].
  split; [exact Hreach |]. split; [exact Hrd |].
  split; [exact Hn |]. split; [reflexivity |].
  split; reflexivity.
Qed.


(** X18: of the event, the handler uses the text that the payload decodes
    to, [user_id] and [session_id], and nothing else: two events that
    decode to the same text (one plain, one base64, say) for the same user
    and session get the same response and leave the same bucket. *)
Theorem same_text_same_outcome event event' s3 text :
  decodes_to w event text ->
  decodes_to w event' text ->
  dict_get event "user_id" PyNone = dict_get event' "user_id" PyNone ->
  dict_get event "session_id" (PyStr (generate_session_id w 0)) =
    dict_get event' "session_id" (PyStr (generate_session_id w 0)) ->
  lambda_handler w event s3 = lambda_handler w event' s3.
Proof.
  intros Hdec Hdec' Huser Hsession.
  rewrite (lambda_handler_decoded _ _ _ Hdec), (lambda_handler_decoded _ _ _ Hdec').
  unfold success_response, upload_request, s3_key_of, session_id_of.
  rewrite Huser, Hsession. reflexivity.
Qed.

End MoreHandlerFacts.

(** * The library model and the program on concrete inputs *)

(** ** The reader, line by line *)

Lemma append_cons x (a b : string) : String x a +:+ b = String x (a +:+ b).
Proof. reflexivity. Qed.

Lemma append_nil_r (a : string) : a +:+ "" = a.
Proof.
  induction a as [| x a IH]; [reflexivity |].
  rewrite append_cons, IH. reflexivity.
Qed.

Lemma append_assoc (a b c : string) : (a +:+ b) +:+ c = a +:+ (b +:+ c).
Proof.
  induction a as [| x a IH]; [reflexivity |].
  rewrite !append_cons, IH. reflexivity.
Qed.

Lemma readlines_from_line line : forall cur rest,
  lf_free line = true ->
  CPython.readlines_from cur (line +:+ nl +:+ rest)
  = (cur +:+ line +:+ nl) :: CPython.readlines_from "" rest.
Proof.
  induction line as [| c line IH]; intros cur rest Hfree.
  - change (CPython.readlines_from cur (String CPython.LF rest)
            = (cur +:+ nl) :: CPython.readlines_from "" rest).
    cbn [CPython.readlines_from]. rewrite bool_decide_true by reflexivity.
    reflexivity.
  - cbn [lf_free] in Hfree. apply andb_true_iff in Hfree as [Hc Hfree].
    apply negb_true_iff in Hc.
    rewrite append_cons. cbn [CPython.readlines_from].
    rewrite Hc, IH by assumption.
    rewrite append_assoc. reflexivity.
Qed.

Lemma readlines_unlines lines :
  forallb lf_free lines = true ->
  CPython.readlines (unlines lines) = map (fun l => l +:+ nl) lines.
Proof.
  unfold CPython.readlines. induction lines as [| l lines IH]; intros Hfree.
  - reflexivity.
  - cbn [forallb] in Hfree. apply andb_true_iff in Hfree as [Hl Hfree].
    cbn [unlines map]. rewrite readlines_from_line, IH by assumption.
    reflexivity.
Qed.

(** A line that is a whole record. *)
Lemma read_records_line line lines p :
  CPython.feed_line CPython.parse_reset line = Ok p ->
  CPython.state p = CPython.START_RECORD ->
  CPython.read_records (line :: lines) CPython.parse_reset
  = Yield (CPython.fields p) (CPython.read_records lines CPython.parse_reset).
Proof.
  intros Hfeed Hstate. cbn [CPython.read_records].
  rewrite Hfeed, Hstate, bool_decide_true by reflexivity. reflexivity.
Qed.

Lemma read_records_repeat line p n : forall lines,
  CPython.feed_line CPython.parse_reset line = Ok p ->
  CPython.state p = CPython.START_RECORD ->
  CPython.read_records (repeat line n ++ lines) CPython.parse_reset
  = yield_all (repeat (CPython.fields p) n)
      (CPython.read_records lines CPython.parse_reset).
Proof.
  intros lines Hfeed Hstate. induction n as [| n IH]; [reflexivity |].
  cbn [repeat app yield_all].
  rewrite (read_records_line _ _ _ Hfeed Hstate), IH. reflexivity.
Qed.

Lemma forallb_repeat {A} (f : A -> bool) x n :
  f x = true -> forallb f (repeat x n) = true.
Proof. intros Hx. induction n; cbn; [reflexivity | rewrite Hx; assumption]. Qed.

Lemma len_repeat {A} (x : A) n : len (repeat x n) = Z.of_nat n.
Proof. unfold len. induction n; cbn [repeat length]; lia. Qed.

Lemma csv_reader_summary_rows n :
  csv_reader (csv_text (repeat summary_line n ++ ["one more"])) =
    Yield EXPECTED_HEADER
      (yield_all (repeat summary_fields n) (Yield ["one more"] StopIteration)).
Proof.
  cbn [csv_reader CPython.builtins]. unfold CPython.reader_of, csv_text.
  rewrite readlines_unlines.
  2: { cbn [forallb]. rewrite forallb_app, forallb_repeat by (vm_compute; reflexivity).
       vm_compute. reflexivity. }
  cbn [map]. rewrite map_app, map_repeat.
  assert (CPython.feed_line CPython.parse_reset (header_line +:+ nl)
          = Ok (CPython.Parser CPython.START_RECORD EXPECTED_HEADER "" 0)) as Hh
    by (vm_compute; reflexivity).
  assert (CPython.feed_line CPython.parse_reset (summary_line +:+ nl)
          = Ok (CPython.Parser CPython.START_RECORD summary_fields "" 0)) as Hs
    by (vm_compute; reflexivity).
  assert (CPython.read_records (map (fun l => l +:+ nl) ["one more"])
            CPython.parse_reset
          = Yield ["one more"] StopIteration) as Hlast
    by (vm_compute; reflexivity).
  rewrite (read_records_line _ _ _ Hh eq_refl).
  rewrite (read_records_repeat _ _ _ _ Hs eq_refl).
  rewrite Hlast. reflexivity.
Qed.

(** ** The library model at work *)

Example int_accepts :
  map int_parses ["7"; " -12 "; "1_000"; "1.0"; "1__0"; ""; "x"]
  = [true; true; true; false; false; false; false].
Proof. vm_compute. reflexivity. Qed.

Example float_accepts :
  map float_parses ["7"; " 1.5e3 "; ".5"; "1."; "-inf"; "NaN"; "."; "1e"; "fast"]
  = [true; true; true; true; true; true; false; false; false].
Proof. vm_compute. reflexivity. Qed.

Example quoted_field_spans_lines :
  csv_reader ("a," +:+ String CPython.QUOTE "b,c" +:+ nl +:+ "d"
              +:+ String CPython.QUOTE ",e" +:+ nl)
  = Yield ["a"; "b,c" +:+ nl +:+ "d"; "e"] StopIteration.
Proof. vm_compute. reflexivity. Qed.

Example empty_text_is_empty_file :
  validate_csv "" = invalid "Empty CSV file".
Proof. vm_compute. reflexivity. Qed.

Example header_alone_has_no_rows :
  validate_csv header_line = invalid "No data rows found".
Proof. vm_compute. reflexivity. Qed.

(** ** The statements above on concrete inputs *)

(** Two well-formed rows, with lines ended by a carriage return and a line
    feed. *)
Lemma validate_well_formed_rows_witness :
  csv_reader two_rows =
    Yield EXPECTED_HEADER (yield_all [good_fields; good_fields] StopIteration)
  /\ forallb well_formed_row [good_fields; good_fields] = true
  /\ 1 <= len [good_fields; good_fields] <= 100000
  /\ validate_csv two_rows =
       {| valid := true; error := None;
          row_count := Some (len [good_fields; good_fields]) |}.
Proof.
  assert (csv_reader two_rows =
            Yield EXPECTED_HEADER
              (yield_all [good_fields; good_fields] StopIteration)) as Hrd
    by (vm_compute; reflexivity).
  assert (forallb well_formed_row [good_fields; good_fields] = true) as Hwf
    by (vm_compute; reflexivity).
  assert (1 <= len [good_fields; good_fields] <= 100000) as Hn
    by (unfold len; cbn; lia).
  exact (conj Hrd (conj Hwf (conj Hn
           (validate_well_formed_rows two_rows _ Hrd Hwf Hn)))).
Defined.

(** 100000 summary rows and one more line. *)
Lemma too_many_rows_past_cap_witness :
  csv_reader over_cap =
    Yield EXPECTED_HEADER
      (yield_all (repeat summary_fields (Z.to_nat 100000))
         (Yield ["one more"] StopIteration))
  /\ len (repeat summary_fields (Z.to_nat 100000)) = 100000
  /\ forallb accepted_row (repeat summary_fields (Z.to_nat 100000)) = true
  /\ validate_csv over_cap =
       {| valid := false; error := Some "Too many rows (max 100000)";
          row_count := None |}.
Proof.
  pose proof (csv_reader_summary_rows (Z.to_nat 100000)) as Hrd.
  fold over_cap in Hrd.
  assert (len (repeat summary_fields (Z.to_nat 100000)) = 100000) as Hn
    by (rewrite len_repeat; lia).
  assert (forallb accepted_row (repeat summary_fields (Z.to_nat 100000)) = true)
    as Hacc by (apply forallb_repeat; vm_compute; reflexivity).
  exact (conj Hrd (conj Hn (conj Hacc
           (proj1 (proj2 (too_many_rows_past_cap over_cap _ _ _ Hrd Hn)) Hacc)))).
Defined.

(** A row of three columns after a well-formed row. *)
Lemma wrong_column_count_reported_witness :
  csv_reader with_short_row =
    Yield EXPECTED_HEADER
      (yield_all [good_fields] (Yield ("a" :: ["b"; "c"]) StopIteration))
  /\ len ("a" :: ["b"; "c"]) <> 22
  /\ startswith "a" "Positive Goals Collected" = false
  /\ forallb accepted_row [good_fields] = true
  /\ len [good_fields] < 100000
  /\ validate_csv with_short_row =
       {| valid := false;
          error := Some "Row 3: Expected 22 columns, got 3. (['a', 'b', 'c'])";
          row_count := None |}.
Proof.
  assert (csv_reader with_short_row =
            Yield EXPECTED_HEADER
              (yield_all [good_fields] (Yield ("a" :: ["b"; "c"]) StopIteration)))
    as Hrd by (vm_compute; reflexivity).
  assert (len ("a" :: ["b"; "c"]) <> 22) as Hlen by (unfold len; cbn; lia).
  assert (startswith "a" "Positive Goals Collected" = false) as Hmark
    by (vm_compute; reflexivity).
  assert (forallb accepted_row [good_fields] = true) as Hacc
    by (vm_compute; reflexivity).
  assert (len [good_fields] < 100000) as Hn by (unfold len; cbn; lia).
  exact (conj Hrd (conj Hlen (conj Hmark (conj Hacc (conj Hn
           (proj2 (wrong_column_count_reported with_short_row _ _ _ _
                     Hrd Hlen Hmark) Hacc Hn)))))).
Defined.

(** A row of 22 columns whose first field is the summary marker: the
    numeric conversions run on it, and the marker is no integer. *)
Lemma marker_row_of_22_columns_is_type_checked :
  csv_reader with_marker_of_22 =
    Yield EXPECTED_HEADER (Yield marker_fields StopIteration)
  /\ startswith (column marker_fields 0) "Positive Goals Collected" = true
  /\ len marker_fields = 22
  /\ validate_csv with_marker_of_22 =
       {| valid := false;
          error := Some "Row 2: Invalid numeric values in required fields";
          row_count := None |}.
Proof. repeat split; vm_compute; reflexivity. Qed.

(** A summary row of two columns, alone after the header. *)
Lemma summary_row_skips_numeric_checks_witness :
  csv_reader only_summary =
    Yield EXPECTED_HEADER
      (yield_all [] (Yield ("Positive Goals Collected: 2" :: ["of 3"]) StopIteration))
  /\ len ("Positive Goals Collected: 2" :: ["of 3"]) <> 22
  /\ startswith "Positive Goals Collected: 2" "Positive Goals Collected" = true
  /\ (forall n c, c <= 100000 ->
        loop_body n c ("Positive Goals Collected: 2" :: ["of 3"]) = Ok Continue)
  /\ error (validate_csv only_summary) <>
       Some ("Row " +:+ str_int (2 + len ([] : list (list string))) +:+
             ": Invalid numeric values in required fields").
Proof.
  assert (csv_reader only_summary =
            Yield EXPECTED_HEADER
              (yield_all []
                 (Yield ("Positive Goals Collected: 2" :: ["of 3"]) StopIteration)))
    as Hrd by (vm_compute; reflexivity).
  assert (len ("Positive Goals Collected: 2" :: ["of 3"]) <> 22) as Hlen
    by (unfold len; cbn; lia).
  assert (startswith "Positive Goals Collected: 2" "Positive Goals Collected"
          = true) as Hmark by (vm_compute; reflexivity).
  exact (conj Hrd (conj Hlen (conj Hmark
           (summary_row_skips_numeric_checks only_summary [] _ _ _
              Hrd Hlen Hmark)))).
Defined.

(** A summary row between two well-formed rows: three rows are counted. *)
Lemma summary_row_accepted_and_counted_witness :
  csv_reader with_summary =
    Yield EXPECTED_HEADER
      (yield_all [good_fields]
         (Yield ("Positive Goals Collected: 2" :: ["of 3"])
            (yield_all [good_fields] StopIteration)))
  /\ len ("Positive Goals Collected: 2" :: ["of 3"]) <> 22
  /\ startswith "Positive Goals Collected: 2" "Positive Goals Collected" = true
  /\ forallb accepted_row [good_fields] = true
  /\ len [good_fields] + 1 + len [good_fields] <= 100000
  /\ validate_csv with_summary =
       {| valid := true; error := None; row_count := Some 3 |}.
Proof.
  assert (csv_reader with_summary =
            Yield EXPECTED_HEADER
              (yield_all [good_fields]
                 (Yield ("Positive Goals Collected: 2" :: ["of 3"])
                    (yield_all [good_fields] StopIteration)))) as Hrd
    by (vm_compute; reflexivity).
  assert (len ("Positive Goals Collected: 2" :: ["of 3"]) <> 22) as Hlen
    by (unfold len; cbn; lia).
  assert (startswith "Positive Goals Collected: 2" "Positive Goals Collected"
          = true) as Hmark by (vm_compute; reflexivity).
  assert (forallb accepted_row [good_fields] = true) as Hacc
    by (vm_compute; reflexivity).
  assert (len [good_fields] + 1 + len [good_fields] <= 100000) as Hcap
    by (unfold len; cbn; lia).
  exact (conj Hrd (conj Hlen (conj Hmark (conj Hacc (conj Hcap
           (summary_row_accepted_and_counted with_summary _ _ _ _
              Hrd Hlen Hmark Hacc Hacc Hcap)))))).
Defined.

(** An exception that arises inside the validation and is not reported as
    a CSV parsing error: the [ValueError] of [int] on the first field. *)
Lemma value_error_is_reported_by_the_row_handler :
  csv_reader with_bad_int =
    Yield EXPECTED_HEADER (Yield bad_int_fields StopIteration)
  /\ numeric_checks bad_int_fields =
       Raise (Exn ValueError "invalid literal for int() with base 10: 'x'")
  /\ validate_csv with_bad_int =
       {| valid := false;
          error := Some "Row 2: Invalid numeric values in required fields";
          row_count := None |}
  /\ validate_csv with_bad_int <>
       parsing_error (Exn ValueError "invalid literal for int() with base 10: 'x'").
Proof. repeat split; vm_compute; (reflexivity || discriminate). Qed.

(** A row of 22 columns whose sixth field is no number, after a well-formed
    row. *)
Lemma numeric_failure_iff_witness :
  csv_reader with_bad_float =
    Yield EXPECTED_HEADER
      (yield_all [good_fields]
         (Yield bad_float_fields (Yield good_fields StopIteration)))
  /\ forallb accepted_row [good_fields] = true
  /\ len [good_fields] < 100000
  /\ len bad_float_fields = 22
  /\ numeric_columns_ok bad_float_fields = false
  /\ validate_csv with_bad_float =
       {| valid := false;
          error := Some "Row 3: Invalid numeric values in required fields";
          row_count := None |}.
Proof.
  assert (csv_reader with_bad_float =
            Yield EXPECTED_HEADER
              (yield_all [good_fields]
                 (Yield bad_float_fields (Yield good_fields StopIteration))))
    as Hrd by (vm_compute; reflexivity).
  assert (forallb accepted_row [good_fields] = true) as Hacc
    by (vm_compute; reflexivity).
  assert (len [good_fields] < 100000) as Hn by (unfold len; cbn; lia).
  assert (len bad_float_fields = 22) as Hlen by reflexivity.
  assert (numeric_columns_ok bad_float_fields = false) as Hnum
    by (vm_compute; reflexivity).
  exact (conj Hrd (conj Hacc (conj Hn (conj Hlen (conj Hnum
           (proj2 (proj1 (numeric_failure_iff with_bad_float _ _ _
                            Hrd Hacc Hn Hlen)) Hnum)))))).
Defined.

(** An event with the payload and a session id, and no [user_id]. *)
Lemma key_without_user_id_witness :
  dict_has upload_event "user_id" = false
  /\ dict_get upload_event "csv_data" PyNone = PyStr two_rows
  /\ two_rows <> ""
  /\ decode quiet_world (dict_get upload_event "encoding" (PyStr "plain")) two_rows
     = inl two_rows
  /\ Z.of_nat (String.length two_rows) <= MAX_FILE_SIZE
  /\ valid (validate_csv two_rows) = true
  /\ lambda_handler quiet_world upload_event ∅ =
       ({| statusCode := 200;
           headers := cors_headers;
           body :=
             CPython.json_dumps
               [ ("message", JStr "Telemetry uploaded successfully");
                 ("s3_key", JStr "None/a1b2c3d4e5f6.csv");
                 ("row_count", JInt 2);
                 ("session_id", JStr "a1b2c3d4e5f6") ] |},
        {[ "None/a1b2c3d4e5f6.csv" :=
             {| Bucket := "test-csv-file-storage";
                Key := "None/a1b2c3d4e5f6.csv";
                Body := two_rows;
                ContentType := "text/csv";
                Metadata :=
                  [ ("session_id", PyStr "a1b2c3d4e5f6");
                    ("row_count", PyStr "2");
                    ("upload_timestamp", PyStr "2024-05-01T12:00:00.000000") ] |} ]}).
Proof.
  assert (dict_has upload_event "user_id" = false) as Huser
    by (vm_compute; reflexivity).
  assert (dict_get upload_event "csv_data" PyNone = PyStr two_rows) as Hcsv
    by reflexivity.
  assert (two_rows <> "") as Hne by (vm_compute; discriminate).
  assert (decode quiet_world (dict_get upload_event "encoding" (PyStr "plain"))
            two_rows = inl two_rows) as Hdec by reflexivity.
  assert (Z.of_nat (String.length two_rows) <= MAX_FILE_SIZE) as Hsize
    by (vm_compute; discriminate).
  assert (valid (validate_csv two_rows) = true) as Hvalid
    by (vm_compute; reflexivity).
  pose proof (key_without_user_id quiet_world upload_event ∅ two_rows two_rows
                Huser Hcsv Hne Hdec Hsize Hvalid) as Hkey.
  assert (validate_csv two_rows = valid_with 2) as Hv
    by (vm_compute; reflexivity).
  cbv zeta in Hkey. rewrite Hv in Hkey.
  exact (conj Huser (conj Hcsv (conj Hne (conj Hdec (conj Hsize (conj Hvalid
           Hkey)))))).
Defined.

(** A blank line between two well-formed rows: the reader gives a record
    with no field. *)
Lemma empty_record_is_parsing_error_witness :
  csv_reader with_blank_line =
    Yield EXPECTED_HEADER
      (yield_all [good_fields] (Yield [] (Yield good_fields StopIteration)))
  /\ forallb accepted_row [good_fields] = true
  /\ len [good_fields] < 100000
  /\ validate_csv with_blank_line =
       {| valid := false;
          error := Some "CSV parsing error: list index out of range";
          row_count := None |}.
Proof.
  assert (csv_reader with_blank_line =
            Yield EXPECTED_HEADER
              (yield_all [good_fields] (Yield [] (Yield good_fields StopIteration))))
    as Hrd by (vm_compute; reflexivity).
  assert (forallb accepted_row [good_fields] = true) as Hacc
    by (vm_compute; reflexivity).
  assert (len [good_fields] < 100000) as Hn by (unfold len; cbn; lia).
  exact (conj Hrd (conj Hacc (conj Hn
           (proj2 (proj2 (empty_record_is_parsing_error with_blank_line _ _ Hrd))
              Hacc Hn)))).
Defined.

(** ** The properties of the second part on concrete inputs *)

Lemma header_mismatch_exactly_for_another_first_record_witness :
  csv_reader with_renamed_header =
    Yield renamed_header_fields (Yield good_fields StopIteration)
  /\ renamed_header_fields <> EXPECTED_HEADER
  /\ validate_csv with_renamed_header =
       invalid "Header mismatch. Expected 22 columns, got 22".
Proof.
  assert (csv_reader with_renamed_header =
            Yield renamed_header_fields (Yield good_fields StopIteration))
    as Hrd by (vm_compute; reflexivity).
  assert (renamed_header_fields <> EXPECTED_HEADER) as Hne
    by (vm_compute; discriminate).
  exact (conj Hrd (conj Hne
           (proj1 (header_mismatch_exactly_for_another_first_record
                     with_renamed_header _ _ Hrd) Hne))).
Defined.

Lemma reader_error_after_rows_witness :
  csv_reader with_bare_cr =
    Yield EXPECTED_HEADER (yield_all [good_fields] (Throws bare_cr_error))
  /\ forallb accepted_row [good_fields] = true
  /\ len [good_fields] <= 100000
  /\ validate_csv with_bare_cr =
       {| valid := false;
          error := Some ("CSV parsing error: " +:+ exn_msg bare_cr_error);
          row_count := None |}.
Proof.
  assert (csv_reader with_bare_cr =
            Yield EXPECTED_HEADER (yield_all [good_fields] (Throws bare_cr_error)))
    as Hrd by (vm_compute; reflexivity).
  assert (forallb accepted_row [good_fields] = true) as Hacc
    by (vm_compute; reflexivity).
  assert (len [good_fields] <= 100000) as Hn by (unfold len; cbn; lia).
  exact (conj Hrd (conj Hacc (conj Hn
           (reader_error_after_rows with_bare_cr _ _ Hrd Hacc Hn)))).
Defined.

Lemma verdict_ignores_what_follows_a_failure_witness :
  csv_reader with_short_row =
    Yield EXPECTED_HEADER
      (yield_all [good_fields] (Yield ("a" :: ["b"; "c"]) StopIteration))
  /\ csv_reader with_short_row_and_more =
       Yield EXPECTED_HEADER
         (yield_all [good_fields]
            (Yield ("a" :: ["b"; "c"]) (Throws bare_cr_error)))
  /\ accepted_row ("a" :: ["b"; "c"]) = false
  /\ validate_csv with_short_row = validate_csv with_short_row_and_more.
Proof.
  assert (csv_reader with_short_row =
            Yield EXPECTED_HEADER
              (yield_all [good_fields] (Yield ("a" :: ["b"; "c"]) StopIteration)))
    as Hrd by (vm_compute; reflexivity).
  assert (csv_reader with_short_row_and_more =
            Yield EXPECTED_HEADER
              (yield_all [good_fields]
                 (Yield ("a" :: ["b"; "c"]) (Throws bare_cr_error))))
    as Hrd' by (vm_compute; reflexivity).
  assert (accepted_row ("a" :: ["b"; "c"]) = false) as Hrej
    by (vm_compute; reflexivity).
  exact (conj Hrd (conj Hrd' (conj Hrej
           (verdict_ignores_what_follows_a_failure
              with_short_row with_short_row_and_more _ _ _ _
              Hrd Hrd' (or_introl Hrej))))).
Defined.

Lemma named_row_is_first_rejected_witness :
  names_row 3 (validate_csv with_short_row)
  /\ exists rows row rest,
       csv_reader with_short_row =
         Yield EXPECTED_HEADER (yield_all rows (Yield row rest))
       /\ 3 = 2 + len rows /\ len rows < 100000
       /\ forallb accepted_row rows = true /\ accepted_row row = false.
Proof.
  assert (names_row 3 (validate_csv with_short_row)) as Hnames.
  { right. exists ("a" :: ["b"; "c"]). vm_compute. reflexivity. }
  exact (conj Hnames (named_row_is_first_rejected with_short_row 3 Hnames)).
Defined.

Lemma verdict_ignores_columns_from_ten_witness :
  csv_reader two_rows =
    Yield EXPECTED_HEADER (yield_all [good_fields; good_fields] StopIteration)
  /\ csv_reader with_other_tail =
       Yield EXPECTED_HEADER
         (yield_all [other_tail_fields; good_fields] StopIteration)
  /\ Forall2 same_checked_columns
       [good_fields; good_fields] [other_tail_fields; good_fields]
  /\ good_fields <> other_tail_fields
  /\ validate_csv two_rows = validate_csv with_other_tail.
Proof.
  assert (csv_reader two_rows =
            Yield EXPECTED_HEADER
              (yield_all [good_fields; good_fields] StopIteration))
    as Hrd by (vm_compute; reflexivity).
  assert (csv_reader with_other_tail =
            Yield EXPECTED_HEADER
              (yield_all [other_tail_fields; good_fields] StopIteration))
    as Hrd' by (vm_compute; reflexivity).
  assert (Forall2 same_checked_columns
            [good_fields; good_fields] [other_tail_fields; good_fields])
    as Hsame.
  { constructor.
    - right. vm_compute. repeat split; reflexivity.
    - constructor; [left; reflexivity | constructor]. }
  assert (good_fields <> other_tail_fields) as Hother
    by (vm_compute; discriminate).
  exact (conj Hrd (conj Hrd' (conj Hsame (conj Hother
           (verdict_ignores_columns_from_ten two_rows with_other_tail _ _ _
              Hrd Hrd' Hsame))))).
Defined.

Lemma success_reports_the_number_of_rows_witness :
  statusCode (fst (lambda_handler quiet_world upload_event ∅)) = 200
  /\ exists text rows object,
       reaches_validation quiet_world upload_event text
       /\ csv_reader text = Yield EXPECTED_HEADER (yield_all rows StopIteration)
       /\ 1 <= len rows <= 100000
       /\ body (fst (lambda_handler quiet_world upload_event ∅)) =
            json_dumps quiet_world
              [ ("message", JStr "Telemetry uploaded successfully");
                ("s3_key", JStr (s3_key_of quiet_world upload_event));
                ("row_count", JInt (len rows));
                ("session_id", to_json (session_id_of quiet_world upload_event)) ]
       /\ snd (lambda_handler quiet_world upload_event ∅)
            !! s3_key_of quiet_world upload_event = Some object
       /\ Metadata object =
            [ ("session_id", session_id_of quiet_world upload_event);
              ("row_count", PyStr (str_int (len rows)));
              ("upload_timestamp", PyStr (utcnow_isoformat quiet_world 1)) ].
Proof.
  assert (reaches_validation quiet_world upload_event two_rows) as Hreach.
  { split.
    - exists two_rows. split; [reflexivity |].
      split; [vm_compute; discriminate | reflexivity].
    - vm_compute. discriminate. }
  assert (valid (validate_csv two_rows) = true) as Hvalid
    by (vm_compute; reflexivity).
  assert (statusCode (fst (lambda_handler quiet_world upload_event ∅)) = 200)
    as Hstatus.
  { rewrite (lambda_handler_validated quiet_world _ _ _ Hreach), Hvalid.
    reflexivity. }
  exact (conj Hstatus
           (success_reports_the_number_of_rows quiet_world upload_event ∅
              Hstatus)).
Defined.

Lemma same_text_same_outcome_witness :
  decodes_to decoding_world upload_event two_rows
  /\ decodes_to decoding_world base64_event two_rows
  /\ dict_get upload_event "user_id" PyNone =
       dict_get base64_event "user_id" PyNone
  /\ dict_get upload_event "session_id"
         (PyStr (generate_session_id decoding_world 0)) =
       dict_get base64_event "session_id"
         (PyStr (generate_session_id decoding_world 0))
  /\ lambda_handler decoding_world upload_event ∅ =
       lambda_handler decoding_world base64_event ∅.
Proof.
  assert (decodes_to decoding_world upload_event two_rows) as Hdec.
  { exists two_rows. split; [reflexivity |].
    split; [vm_compute; discriminate | reflexivity]. }
  assert (decodes_to decoding_world base64_event two_rows) as Hdec'.
  { exists two_rows_base64. split; [reflexivity |].
    split; [vm_compute; discriminate | vm_compute; reflexivity]. }
  assert (dict_get upload_event "user_id" PyNone =
            dict_get base64_event "user_id" PyNone) as Huser
    by (vm_compute; reflexivity).
  assert (dict_get upload_event "session_id"
              (PyStr (generate_session_id decoding_world 0)) =
            dict_get base64_event "session_id"
              (PyStr (generate_session_id decoding_world 0))) as Hsession
    by (vm_compute; reflexivity).
  exact (conj Hdec (conj Hdec' (conj Huser (conj Hsession
           (same_text_same_outcome decoding_world upload_event base64_event ∅
              two_rows Hdec Hdec' Huser Hsession))))).
Defined.
